(** * Extraction-and-analytics pipeline of the page analyser

    A shallow embedding of [src/classes.py] (classes [RawPage],
    [PageContent], [Extractor], [PageAnalytics]) and [src/exceptions.py].

    Conventions of the model.
    - A Python [str] is a [string]; a character is a code point below 256,
      so the text is modelled on the Latin-1 range.
    - A Python [dict] whose iteration order is observed (the [Counter], the
      frequency dictionaries, the longest-words dictionary) is an
      association list in insertion order with pairwise different keys;
      [analytics_data], which the code only reads and writes by key, is a
      [gmap string value].
    - A call that can raise returns a [result]; attribute state
      ([Extractor], [PageAnalytics]) is passed explicitly.
    - A numpy float is [NaN] or the exact rational that numpy rounds to
      binary64. The rounding is not modelled, so the statements about such
      a value are limited to what rounding keeps: whether it is [nan],
      bounds by integers, and equality of two values computed from the
      same numbers. *)

From Stdlib Require Import Ascii QArith Qcanon.
From stdpp Require Import base tactics option list sorting numbers strings gmap.

Local Open Scope nat_scope.

(** ** Exceptions and results *)

(** [UrlError] is the one exception class of [src/exceptions.py]; the other
    constructors are the Python built-ins the modelled code can raise. *)
Inductive exn : Type :=
  | UrlError (url message : string)
  | ValueError
  | TypeError
  | KeyError (key : string).

Inductive result (A : Type) : Type :=
  | Ok (a : A)
  | Raise (e : exn).
Arguments Ok {A} a.
Arguments Raise {A} e.

Global Instance result_ret : MRet result := λ A a, Ok a.

Global Instance result_bind : MBind result := λ A B k m,
  match m with
  | Ok a => k a
  | Raise e => Raise e
  end.

Global Instance result_fmap : FMap result := λ A B f m,
  match m with
  | Ok a => Ok (f a)
  | Raise e => Raise e
  end.

(** ** Python string operations *)

Module Py.

(** [str.isspace] on one character, for code points below 256: TAB..CR,
    FS..US, SPACE, NEL and NBSP. *)
Definition isspace (c : ascii) : bool :=
  match c with
  | "009" | "010" | "011" | "012" | "013"
  | "028" | "029" | "030" | "031"
  | " " | "133" | "160" => true
  | _ => false
  end%char.

(** [str.lower] on one character, for code points below 256: A..Z and the
    accented capitals 192..222 other than the multiplication sign 215. *)
Definition lower_char (c : ascii) : ascii :=
  let n := nat_of_ascii c in
  if (65 <=? n) && (n <=? 90) then ascii_of_nat (n + 32)
  else if (192 <=? n) && (n <=? 222) && negb (n =? 215)
       then ascii_of_nat (n + 32)
  else c.

Fixpoint lower (s : string) : string :=
  match s with
  | EmptyString => EmptyString
  | String c s' => String (lower_char c) (lower s')
  end.

(** [len(s)]. *)
Definition len (s : string) : nat := String.length s.

(** Truth value of a string: [if s]. *)
Definition truthy (s : string) : bool :=
  match s with
  | EmptyString => false
  | String _ _ => true
  end.

Fixpoint lstrip (s : string) : string :=
  match s with
  | EmptyString => EmptyString
  | String c s' => if isspace c then lstrip s' else s
  end.

Fixpoint rstrip (s : string) : string :=
  match s with
  | EmptyString => EmptyString
  | String c s' =>
      match rstrip s' with
      | EmptyString => if isspace c then EmptyString else String c EmptyString
      | r => String c r
      end
  end.

(** [s.strip()]. *)
Definition strip (s : string) : string := lstrip (rstrip s).

(** Prepend a character to the first piece of a split. *)
Definition push (c : ascii) (ps : list string) : list string :=
  match ps with
  | [] => [String c EmptyString]
  | p :: ps' => String c p :: ps'
  end.

(** [re.compile(pat).split(s)] for a pattern that matches exactly one
    character, the characters satisfying [sep]: every match is a
    boundary, and empty pieces are kept. *)
Fixpoint re_split (sep : ascii → bool) (s : string) : list string :=
  match s with
  | EmptyString => [EmptyString]
  | String c s' =>
      if sep c then EmptyString :: re_split sep s'
      else push c (re_split sep s')
  end.

(** Scan for [s.split()]: the pending run of non-space characters at the
    front of [s], and the tokens after it. *)
Definition flush (t : string) (ts : list string) : list string :=
  if truthy t then t :: ts else ts.

Fixpoint split_scan (s : string) : string * list string :=
  match s with
  | EmptyString => (EmptyString, [])
  | String c s' =>
      let '(t, ts) := split_scan s' in
      if isspace c then (EmptyString, flush t ts) else (String c t, ts)
  end.

(** [s.split()]: the maximal runs of non-whitespace characters. *)
Definition split (s : string) : list string :=
  let '(t, ts) := split_scan s in flush t ts.

(** Characters of a string that are not whitespace. *)
Fixpoint nonspace (s : string) : string :=
  match s with
  | EmptyString => EmptyString
  | String c s' => if isspace c then nonspace s' else String c (nonspace s')
  end.

Fixpoint concat (l : list string) : string :=
  match l with
  | [] => EmptyString
  | s :: l' => s +:+ concat l'
  end.

(** Every character of the string satisfies [P]. *)
Fixpoint all (P : ascii → bool) (s : string) : bool :=
  match s with
  | EmptyString => true
  | String c s' => P c && all P s'
  end.

End Py.

(** ** Segmenting and tokenising: [Extractor._fetch_data] *)

(** The pattern [[.!?]] of [sentence_endings]. *)
Definition sentence_endings (c : ascii) : bool :=
  match c with
  | "."%char | "!"%char | "?"%char => true
  | _ => false
  end.

(** [[sentence.strip() for text in texts
       for sentence in sentence_endings.split(text) if sentence.strip()]] *)
Definition segment_paragraph (text : string) : list string :=
  sentence ← Py.re_split sentence_endings text;
  if Py.truthy (Py.strip sentence) then [Py.strip sentence] else [].

Definition segment (texts : list string) : list string :=
  text ← texts; segment_paragraph text.

(** [[word for sentence in self.sentences for word in sentence.split()]] *)
Definition tokenize (sentences : list string) : list string :=
  sentence ← sentences; Py.split sentence.


(** ** Built-in containers and functions *)

(** A [dict] with string keys, as the list of its items in insertion
    order. *)
Module Dict.
Section dict.
Context {V : Type}.

(** [d.get(k)] *)
Fixpoint get (k : string) (d : list (string * V)) : option V :=
  match d with
  | [] => None
  | (k', v) :: d' => if decide (k = k') then Some v else get k d'
  end.

(** [d[k] = v]: an existing key keeps its position, a new key goes to
    the end. *)
Fixpoint set (k : string) (v : V) (d : list (string * V))
  : list (string * V) :=
  match d with
  | [] => [(k, v)]
  | (k', v') :: d' =>
      if decide (k = k') then (k', v) :: d' else (k', v') :: set k v d'
  end.

(** [dict(items)], and a dict comprehension over [items]. *)
Definition of_list (items : list (string * V)) : list (string * V) :=
  foldl (λ d kv, set kv.1 kv.2 d) [] items.
End dict.
End Dict.

(** [sorted(l, key=key, reverse=True)]: a stable sort, elements with equal
    keys keep their order. [insert_desc] puts [x], which came before every
    element of [l], behind the elements with a strictly larger key. *)
Fixpoint insert_desc {A} (key : A → nat) (x : A) (l : list A) : list A :=
  match l with
  | [] => [x]
  | y :: l' =>
      if key x <? key y then y :: insert_desc key x l' else x :: y :: l'
  end.

Fixpoint sorted_desc {A} (key : A → nat) (l : list A) : list A :=
  match l with
  | [] => []
  | x :: l' => insert_desc key x (sorted_desc key l')
  end.

(** [Counter(words)]: counts in first-seen order. *)
Definition Counter (words : list string) : list (string * nat) :=
  foldl (λ d w, Dict.set w (default 0 (Dict.get w d) + 1) d) [] words.

(** [counter.most_common(n)], which is
    [heapq.nlargest(n, counter.items(), key=itemgetter(1))], the first [n]
    items of the stable descending sort by count. *)
Definition most_common (n : nat) (counter : list (string * nat))
  : list (string * nat) :=
  take n (sorted_desc snd counter).

(** The running maximum of [max(iterable, key=key)]: a later item replaces
    the current one only when its key is strictly larger. *)
Fixpoint max_from {A} (key : A → nat) (best : A) (l : list A) : A :=
  match l with
  | [] => best
  | x :: l' => max_from key (if key best <? key x then x else best) l'
  end.

(** [max(l, key=key)] raises [ValueError] on an empty sequence. *)
Definition py_max {A} (key : A → nat) (l : list A) : result A :=
  match l with
  | [] => Raise ValueError
  | x :: l' => Ok (max_from key x l')
  end.

(** Iterating over an attribute that may still be [None]. *)
Definition iter {A} (o : option (list A)) : result (list A) :=
  match o with
  | Some l => Ok l
  | None => Raise TypeError
  end.

(** ** numpy statistics *)

Inductive npfloat : Type :=
  | NaN
  | Fin (q : Qc).

Definition Qc_of_nat (n : nat) : Qc := Qc_of_Z (Z.of_nat n).

(** [np.mean(np.array(l))]: the mean of an empty array is [nan] (numpy
    warns, it does not raise). For a non-empty array the value is the exact
    quotient; numpy returns its rounding to binary64. *)
Definition np_mean (l : list nat) : npfloat :=
  match l with
  | [] => NaN
  | _ => Fin (Qc_of_nat (sum_list l) / Qc_of_nat (length l))%Qc
  end.

(** [np.median(np.array(l))]: the middle element of the sorted array, or
    the mean of the two middle elements, as an exact value; [nan] on an
    empty array. *)
Definition np_median (l : list nat) : npfloat :=
  let s := merge_sort (≤) l in
  let n := length l in
  let lo : nat := s !!! (n / 2 - 1) in
  let hi : nat := s !!! (n / 2) in
  match n with
  | 0 => NaN
  | _ =>
      if Nat.even n
      then Fin ((Qc_of_nat lo + Qc_of_nat hi) / Qc_of_nat 2)%Qc
      else Fin (Qc_of_nat hi)
  end.

(** ** The classes *)

(** A value stored in [analytics_data]. *)
Inductive value : Type :=
  | VDict (d : list (string * nat))
  | VFloat (x : npfloat)
  | VStr (s : string).

(** Acquisition and markup parsing ([requests], [BeautifulSoup]) are
    external. A page is modelled by what
    [[p.text for p in raw_page.data.find_all('p')]] evaluates to: the
    paragraph texts, or the [UrlError] of [RawPage._fetch_data]. *)
Module RawPage.
Record t : Type := mk { url : string; paragraphs : result (list string) }.
End RawPage.

Module PageContent.
Record t : Type := mk {
  url : string;
  sentences : option (list string);
  words : option (list string)
}.

Definition __init__ (url : string) : t := mk url None None.
Definition get_sentences (self : t) : option (list string) := sentences self.
Definition get_words (self : t) : option (list string) := words self.
Definition set_sentences (self : t) (attr : option (list string)) : t :=
  mk (url self) attr (words self).
Definition set_words (self : t) (attr : option (list string)) : t :=
  mk (url self) (sentences self) attr.
End PageContent.

Module Extractor.
Record t : Type := mk {
  sentences : option (list string);
  words : option (list string)
}.

Definition __init__ : t := mk None None.

Definition _fetch_data (self : t) (raw_page : RawPage.t) : result t :=
  texts ← RawPage.paragraphs raw_page;
  let sentences := segment texts in
  let words := tokenize sentences in
  mret (mk (Some sentences) (Some words)).

Definition extract_sentences (self : t) (raw_page : RawPage.t)
    (page_content : PageContent.t) : result (t * PageContent.t) :=
  self ← (if sentences self is None then _fetch_data self raw_page
          else mret self);
  mret (self, PageContent.set_sentences page_content (sentences self)).

Definition extract_words (self : t) (raw_page : RawPage.t)
    (page_content : PageContent.t) : result (t * PageContent.t) :=
  self ← (if words self is None then _fetch_data self raw_page
          else mret self);
  mret (self, PageContent.set_words page_content (words self)).
End Extractor.

Module PageAnalytics.
Record t : Type := mk {
  page_content : PageContent.t;
  analytics_data : gmap string value
}.

Definition stopwords : gset string :=
  {[ "and"; "or"; "but"; "in"; "on"; "at"; "with"; "for"; "the"; "a" ]}.

(** The frequency part of [make_analytics], lines 289-299. *)
Definition word_freq_top20 (words : list string) : list (string * nat) :=
  Dict.of_list (most_common 20 (Counter words)).

Definition filtered_word_freq (words : list string) : list (string * nat) :=
  Dict.of_list
    (filter (λ kv, Py.lower kv.1 ∉ stopwords) (word_freq_top20 words)).

Definition top_10_word_freq (words : list string) : list (string * nat) :=
  Dict.of_list (take 10 (sorted_desc snd (word_freq_top20 words))).

Definition top_10_filtered_word_freq (words : list string)
  : list (string * nat) :=
  Dict.of_list (take 10 (sorted_desc snd (filtered_word_freq words))).

(** Lines 311-312. *)
Definition longest_words (words : list string) : list string :=
  take 10 (sorted_desc Py.len words).

Definition longest_words_dict (words : list string) : list (string * nat) :=
  Dict.of_list ((λ word, (word, Py.len word)) <$> longest_words words).

(** [len(sentence.split())] *)
Definition sentence_length (sentence : string) : nat :=
  length (Py.split sentence).

(** [make_analytics]: the statements in source order. [Counter(None)]
    is the empty counter, so a missing word list first fails where it is
    iterated. When the method raises, the constructor raises and no
    object is left to observe, so the partly filled dictionary is
    dropped. *)
Definition make_analytics (self : t) : result t :=
  let words := PageContent.get_words (page_content self) in
  let counted := default [] words in
  let data := analytics_data self in
  let data := <["top_10_words" := VDict (top_10_word_freq counted)]> data in
  let data :=
    <["top_10_words_filtered" :=
        VDict (top_10_filtered_word_freq counted)]> data in
  ws ← iter words;
  let word_lengths := Py.len <$> ws in
  let data :=
    <["average_word_length" := VFloat (np_mean word_lengths)]> data in
  let data :=
    <["median_word_length" := VFloat (np_median word_lengths)]> data in
  let data :=
    <["top_10_longest_words" := VDict (longest_words_dict ws)]> data in
  let sentences := PageContent.get_sentences (page_content self) in
  ss ← iter sentences;
  let sentence_lengths := sentence_length <$> ss in
  let data :=
    <["average_sentence_length" :=
        VFloat (np_mean sentence_lengths)]> data in
  let data :=
    <["median_sentence_length" :=
        VFloat (np_median sentence_lengths)]> data in
  longest_sentence ← py_max sentence_length ss;
  let data := <["longest_sentence" := VStr longest_sentence]> data in
  mret (mk (page_content self) data).

Definition __init__ (page_content : PageContent.t) : result t :=
  make_analytics (mk page_content ∅).

(** [save_to_json]: the object after the call and the record handed to
    [json.dump] for [filename]. *)
Definition save_to_json (self : t) (filename : string)
  : t * (string * gmap string value) :=
  let data :=
    <["url" := VStr (PageContent.url (page_content self))]>
      (analytics_data self) in
  (mk (page_content self) data, (filename, data)).

(** [self.analytics_data[key]] *)
Definition getitem (self : t) (key : string) : result value :=
  match analytics_data self !! key with
  | Some v => Ok v
  | None => Raise (KeyError key)
  end.

Section rendering.
(** The built-in renderings of a dict and of a float, which the
    modelled code calls and does not define. *)
Variable repr_dict : list (string * nat) → string.
Variable str_float : npfloat → string.
Variable float_2f : npfloat → string.

(** [f"{v}"] *)
Definition format_plain (v : value) : string :=
  match v with
  | VDict d => repr_dict d
  | VFloat x => str_float x
  | VStr s => s
  end.

(** [f"{v:.2f}"]: only a float accepts the format code. *)
Definition format_2f (v : value) : result string :=
  match v with
  | VFloat x => Ok (float_2f x)
  | VStr _ => Raise ValueError
  | VDict _ => Raise TypeError
  end.

Definition nl : string := String "010" "".

Definition __str__ (self : t) : result string :=
  let output :=
    "Page Analytics for " +:+ PageContent.url (page_content self)
      +:+ nl in
  v ← getitem self "top_10_words";
  let output := output +:+ "Top 10 Words: " +:+ format_plain v +:+ nl in
  v ← getitem self "top_10_words_filtered";
  let output :=
    output +:+ "Top 10 Words (No Stopwords): " +:+ format_plain v
      +:+ nl in
  v ← getitem self "average_word_length";
  s ← format_2f v;
  let output := output +:+ "Average Word Length: " +:+ s +:+ nl in
  v ← getitem self "median_word_length";
  s ← format_2f v;
  let output := output +:+ "Median Word Length: " +:+ s +:+ nl in
  v ← getitem self "top_10_longest_words";
  let output :=
    output +:+ "Top 10 Longest Words: " +:+ format_plain v +:+ nl in
  v ← getitem self "average_sentence_length";
  s ← format_2f v;
  let output := output +:+ "Average Sentence Length: " +:+ s +:+ nl in
  v ← getitem self "median_sentence_length";
  s ← format_2f v;
  let output := output +:+ "Median Sentence Length: " +:+ s +:+ nl in
  v ← getitem self "longest_sentence";
  s ← format_2f v;
  let output := output +:+ "The longest Sentence: " +:+ s +:+ nl in
  mret output.
End rendering.
End PageAnalytics.

(** The loop body of [src/main.py] up to the construction of the
    analytics object, for one page. *)
Definition analyse (page_info : RawPage.t) : result PageAnalytics.t :=
  let page_content := PageContent.__init__ (RawPage.url page_info) in
  let extractor := Extractor.__init__ in
  '(extractor, page_content) ←
    Extractor.extract_sentences extractor page_info page_content;
  '(extractor, page_content) ←
    Extractor.extract_words extractor page_info page_content;
  PageAnalytics.__init__ page_content.

Definition sample_page : RawPage.t :=
  RawPage.mk "u" (Ok ["The cat sat. The cat ran!"; "Dogs bark."]).


(** ** Acquisition: the lazy attributes of [RawPage]

    [requests] and [BeautifulSoup] are external. [requests_get url] stands
    for [requests.get(url)], [raise_for_status()] and the parse of the
    response: the text of the [RequestException] ([str(e)]), or the parsed
    document. [find_headline soup] is the text of
    [soup.find('h1', {'id': 'firstHeading'})] when that element exists, and
    [paragraph_texts soup] is [[p.text for p in soup.find_all('p')]]. *)
Module RawPageState.
Section acquisition.
Variable Soup : Type.
Variable requests_get : string → string + Soup.
Variable find_headline : Soup → option string.
Variable paragraph_texts : Soup → list string.

Record t : Type := mk {
  url : string;
  _data : option Soup;
  _headline : option string
}.

Definition __init__ (url : string) : t := mk url None None.

Definition _fetch_data (self : t) : result t :=
  match requests_get (url self) with
  | inr soup =>
      let headline := default "Headline not found" (find_headline soup) in
      Ok (mk (url self) (Some soup) (Some headline))
  | inl e =>
      Raise (UrlError (url self) ("Failed to fetch data: " +:+ e))
  end.

(** The property [data]: the value read and the object after the read. *)
Definition data (self : t) : result (option Soup * t) :=
  self ← (if _data self is None then _fetch_data self else mret self);
  mret (_data self, self).

(** The property [headline]. *)
Definition headline (self : t) : result (option string * t) :=
  self ← (if _headline self is None then _fetch_data self else mret self);
  mret (_headline self, self).

(** What [Extractor._fetch_data] reads from the page:
    [[p.text for p in raw_page.data.find_all('p')]]. A read of [data] that
    returns never returns [None], so the last branch is not reached. *)
Definition paragraphs (self : t) : result (list string) :=
  '(soup, _) ← data self;
  match soup with
  | Some soup => Ok (paragraph_texts soup)
  | None => Raise TypeError
  end.

(** The page as the extractor sees it. *)
Definition observe (self : t) : RawPage.t :=
  RawPage.mk (url self) (paragraphs self).
End acquisition.

Arguments mk {Soup}.
Arguments url {Soup}.
Arguments _data {Soup}.
Arguments _headline {Soup}.
Arguments __init__ {Soup}.
Arguments _fetch_data {Soup}.
Arguments data {Soup}.
Arguments headline {Soup}.
Arguments paragraphs {Soup}.
Arguments observe {Soup}.
End RawPageState.

(** [UrlError.__str__] of [src/exceptions.py]. *)
Definition UrlError_str (url message : string) : string :=
  "UrlError: " +:+ message +:+ " - " +:+ url.

(** ** The comparison table of [src/main.py] *)

Module Main.
(** One entry of [analitics_data]: the dictionary with the keys URL,
    Longest Sentence, Longest Word, Number of Sentences and Number of
    Words. *)
Record row : Type := mk {
  URL : string;
  Longest_Sentence : value;
  Longest_Word : string;
  Number_of_Sentences : nat;
  Number_of_Words : nat
}.

(** [max(d, key=d.get)]: iterating a dict iterates its keys. *)
Definition max_key (d : list (string * nat)) : result string :=
  py_max (λ k, default 0 (Dict.get k d)) d.*1.

(** The argument of [max(d, key=d.get)] as a dict. The constructor of the
    report always stores a dict under this key; for any other value Python
    fails on the attribute [get], which is modelled by [TypeError]. *)
Definition as_dict (v : value) : result (list (string * nat)) :=
  match v with
  | VDict d => Ok d
  | _ => Raise TypeError
  end.

(** [len(x)] of an attribute that may still be [None]. *)
Definition len_of {A} (o : option (list A)) : result nat :=
  length <$> iter o.

(** The body of the loop over [urls], for the page of one url. *)
Definition analytics_dict (page_info : RawPage.t) : result row :=
  page_analytics ← analyse page_info;
  longest_sentence ← PageAnalytics.getitem page_analytics "longest_sentence";
  longest_words ←
    PageAnalytics.getitem page_analytics "top_10_longest_words";
  d ← as_dict longest_words;
  longest_word ← max_key d;
  let page_content := PageAnalytics.page_content page_analytics in
  n_sentences ← len_of (PageContent.get_sentences page_content);
  n_words ← len_of (PageContent.get_words page_content);
  mret (mk (RawPage.url page_info) longest_sentence longest_word
          n_sentences n_words).

(** The loop: the rows appended so far, then the remaining pages. *)
Fixpoint loop (pages : list RawPage.t) (analitics_data : list row)
  : result (list row) :=
  match pages with
  | [] => Ok analitics_data
  | page_info :: pages' =>
      analytics_dict ← analytics_dict page_info;
      loop pages' (analitics_data ++ [analytics_dict])
  end.

Definition main (pages : list RawPage.t) : result (list row) :=
  loop pages [].
End Main.

(** Spec-side vocabulary for the statements below. *)

(** A character that cannot start or be part of a sentence: a terminator
    or whitespace. *)
Definition blank (c : ascii) : bool := sentence_endings c || Py.isspace c.

(** Both lazy attributes of the page are still unset, or both are set. *)
Definition loaded_together {Soup} (self : RawPageState.t Soup) : Prop :=
  (RawPageState._data self = None ∧ RawPageState._headline self = None)
  ∨ (is_Some (RawPageState._data self)
     ∧ is_Some (RawPageState._headline self)).

(** The extractor holds nothing yet, or holds the sentences of some
    paragraphs together with their words. *)
Definition consistent (e : Extractor.t) : Prop :=
  (Extractor.sentences e = None ∧ Extractor.words e = None)
  ∨ ∃ texts,
      Extractor.sentences e = Some (segment texts)
      ∧ Extractor.words e = Some (tokenize (segment texts)).

(** The pieces of a split put back together around the separators. *)
Fixpoint interleave (pieces : list string) (seps : list ascii) : string :=
  match pieces, seps with
  | [], _ => EmptyString
  | p :: _, [] => p
  | p :: ps, c :: cs => p +:+ String c (interleave ps cs)
  end.

(** The characters of a string that satisfy [P], in order. *)
Fixpoint chars (P : ascii → bool) (s : string) : list ascii :=
  match s with
  | EmptyString => []
  | String c s' => if P c then c :: chars P s' else chars P s'
  end.

Definition not_ending (c : ascii) : bool := negb (sentence_endings c).
Definition not_space (c : ascii) : bool := negb (Py.isspace c).

(** The distinct elements of a list, in the order of their first
    occurrence. *)
Fixpoint first_seen (ws : list string) : list string :=
  match ws with
  | [] => []
  | w :: ws' => w :: filter (λ x, x ≠ w) (first_seen ws')
  end.

(** How often [w] occurs in [ws]. *)
Definition occurrences (w : string) (ws : list string) : nat :=
  length (filter (λ x, x = w) ws).

(** Descending by key. *)
Definition desc {A} (key : A → nat) (a b : A) : Prop := key b ≤ key a.

(** A token: non-empty and free of whitespace. *)
Definition is_token (t : string) : Prop :=
  t ≠ "" ∧ Py.all not_space t = true.

(** A sentence: non-empty, not only whitespace. *)
Definition is_sentence (s : string) : Prop :=
  s ≠ "" ∧ Py.all Py.isspace s = false.

(** * Properties *)

(** ** The worked examples of the specification *)

Example segment_ABC : segment ["A. B! C?"] = ["A"; "B"; "C"].
Proof. reflexivity. Qed.

Example sample_page_pipeline :
  segment ["The cat sat. The cat ran!"; "Dogs bark."]
    = ["The cat sat"; "The cat ran"; "Dogs bark"]
  ∧ tokenize (segment ["The cat sat. The cat ran!"; "Dogs bark."])
    = ["The"; "cat"; "sat"; "The"; "cat"; "ran"; "Dogs"; "bark"]
  ∧ PageAnalytics.sentence_length
      <$> segment ["The cat sat. The cat ran!"; "Dogs bark."]
    = [3; 3; 2].
Proof.
  split_and!; reflexivity.
Qed.

Example sample_page_report :
  ∃ pa,
    analyse sample_page = Ok pa
    ∧ PageAnalytics.analytics_data pa !! "top_10_words"
      = Some (VDict [("The", 2); ("cat", 2); ("sat", 1); ("ran", 1);
                     ("Dogs", 1); ("bark", 1)])
    ∧ PageAnalytics.analytics_data pa !! "top_10_words_filtered"
      = Some (VDict [("cat", 2); ("sat", 1); ("ran", 1); ("Dogs", 1);
                     ("bark", 1)])
    ∧ PageAnalytics.analytics_data pa !! "top_10_longest_words"
      = Some (VDict [("Dogs", 4); ("bark", 4); ("The", 3); ("cat", 3);
                     ("sat", 3); ("ran", 3)])
    ∧ PageAnalytics.analytics_data pa !! "longest_sentence"
      = Some (VStr "The cat sat").
Proof. eexists. split_and!; reflexivity. Qed.

Example word_length_statistics :
  np_mean (Py.len <$> ["a"; "aa"; "aaa"; "aaaa"]) = Fin (Q2Qc (5 # 2))
  ∧ np_median (Py.len <$> ["a"; "aa"; "aaa"; "aaaa"]) = Fin (Q2Qc (5 # 2)).
Proof. split; vm_compute; f_equal; by apply Qc_is_canon. Qed.

(** ** Strings *)

Section string_facts.
Implicit Types (s t : string) (c : ascii).

Lemma app_cons c s t : String c s +:+ t = String c (s +:+ t).
Proof. reflexivity. Qed.

Lemma app_empty_l s : "" +:+ s = s.
Proof. reflexivity. Qed.

Lemma truthy_true s : Py.truthy s = true ↔ s ≠ "".
Proof. destruct s; simpl; split; congruence. Qed.

(** *** [strip] *)

Lemma lstrip_split s :
  ∃ l, s = l +:+ Py.lstrip s ∧ Py.all Py.isspace l = true.
Proof.
  induction s as [|c s (l & Hs & Hl)]; [by exists ""|].
  simpl. destruct (Py.isspace c) eqn:Hc.
  - exists (String c l). rewrite app_cons, <- Hs. simpl. by rewrite Hc, Hl.
  - by exists "".
Qed.

Lemma lstrip_head s :
  match Py.lstrip s with
  | EmptyString => True
  | String c _ => Py.isspace c = false
  end.
Proof.
  induction s as [|c s IH]; [done|].
  simpl. destruct (Py.isspace c) eqn:Hc; [done|]. by rewrite Hc.
Qed.

Lemma lstrip_fixed s :
  match s with
  | EmptyString => True
  | String c _ => Py.isspace c = false
  end → Py.lstrip s = s.
Proof. destruct s as [|c s]; [done|]. simpl. by intros ->. Qed.

Lemma rstrip_split s :
  ∃ r, s = Py.rstrip s +:+ r ∧ Py.all Py.isspace r = true.
Proof.
  induction s as [|c s (r & Hs & Hr)]; [by exists ""|].
  simpl. destruct (Py.rstrip s) as [|d u] eqn:Hu.
  - destruct (Py.isspace c) eqn:Hc.
    + exists (String c r). rewrite app_empty_l in *. subst s.
      simpl. by rewrite Hc, Hr.
    + exists r. rewrite app_empty_l in Hs. by subst s.
  - exists r. by rewrite !app_cons, <- app_cons, <- Hs.
Qed.

(** Stripping on the right a second time changes nothing. *)
Lemma rstrip_idemp s : Py.rstrip (Py.rstrip s) = Py.rstrip s.
Proof.
  induction s as [|c s IH]; [done|].
  simpl. destruct (Py.rstrip s) as [|d u] eqn:Hu.
  - destruct (Py.isspace c) eqn:Hc; [done|]. simpl. by rewrite Hc.
  - change (Py.rstrip (String c (String d u))) with
      (match Py.rstrip (String d u) with
       | "" => if Py.isspace c then "" else String c ""
       | r => String c r
       end).
    by rewrite IH.
Qed.

Lemma rstrip_strip s : Py.rstrip (Py.strip s) = Py.strip s.
Proof.
  unfold Py.strip. set (u := Py.rstrip s).
  assert (Hu : Py.rstrip u = u) by apply rstrip_idemp.
  clearbody u. induction u as [|c u IH]; [done|].
  simpl. destruct (Py.isspace c) eqn:Hc; [|done].
  apply IH. simpl in Hu. destruct (Py.rstrip u) eqn:E.
  - by rewrite Hc in Hu.
  - congruence.
Qed.

Lemma strip_idemp s : Py.strip (Py.strip s) = Py.strip s.
Proof.
  unfold Py.strip at 1. rewrite rstrip_strip.
  apply lstrip_fixed, lstrip_head.
Qed.

Lemma strip_split s :
  ∃ l r, s = l +:+ Py.strip s +:+ r
         ∧ Py.all Py.isspace l = true ∧ Py.all Py.isspace r = true.
Proof.
  destruct (rstrip_split s) as (r & Hs & Hr).
  destruct (lstrip_split (Py.rstrip s)) as (l & Hu & Hl).
  exists l, r. split_and!; [|done..].
  unfold Py.strip. rewrite Hs at 1. rewrite Hu at 1.
  clear. induction l as [|c l IH]; [done|]. by rewrite !app_cons, IH.
Qed.

Lemma strip_not_space s : Py.strip s ≠ "" → Py.all Py.isspace (Py.strip s) = false.
Proof.
  unfold Py.strip. pose proof (lstrip_head (Py.rstrip s)) as H.
  destruct (Py.lstrip (Py.rstrip s)); [done|]. intros _. simpl. by rewrite H.
Qed.

End string_facts.

(** *** [re.split] on a one-character pattern *)

Section re_split_facts.
Variable sep : ascii → bool.
Implicit Types (s t : string) (c : ascii).

Lemma re_split_not_nil s : Py.re_split sep s ≠ [].
Proof.
  destruct s as [|c s]; [done|]. simpl.
  destruct (sep c); [done|]. by destruct (Py.re_split sep s).
Qed.

Lemma re_split_length s :
  length (Py.re_split sep s) = S (length (chars sep s)).
Proof.
  induction s as [|c s IH]; [done|]. simpl.
  destruct (sep c); simpl; [by rewrite IH|].
  pose proof (re_split_not_nil s).
  destruct (Py.re_split sep s); [done|]. simpl in *. lia.
Qed.

Lemma re_split_pieces s :
  Forall (λ p, Py.all (λ c, negb (sep c)) p = true) (Py.re_split sep s).
Proof.
  induction s as [|c s IH]; [by repeat constructor|]. simpl.
  destruct (sep c) eqn:Hc; [by constructor|].
  destruct IH as [|p ps Hp Hps]; simpl.
  - repeat constructor. simpl. by rewrite Hc.
  - constructor; [|done]. simpl. by rewrite Hc, Hp.
Qed.

Lemma re_split_interleave s :
  interleave (Py.re_split sep s) (chars sep s) = s.
Proof.
  induction s as [|c s IH]; [done|]. simpl.
  destruct (sep c) eqn:Hc; simpl.
  - by rewrite app_empty_l, IH.
  - pose proof (re_split_not_nil s) as Hne.
    destruct (Py.re_split sep s) as [|p ps]; [done|].
    simpl in *. destruct (chars sep s); [by rewrite IH|].
    by rewrite app_cons, IH.
Qed.

Lemma re_split_no_sep s :
  Py.all (λ c, negb (sep c)) s = true → Py.re_split sep s = [s].
Proof.
  induction s as [|c s IH]; [done|]. simpl.
  intros [Hc Hs]%andb_true_iff. apply negb_true_iff in Hc.
  by rewrite Hc, IH.
Qed.
End re_split_facts.

(** *** [str.split] on whitespace *)

Section split_facts.
Implicit Types (s t : string) (c : ascii).

Lemma flush_app t ts us : Py.flush t (ts ++ us) = Py.flush t ts ++ us.
Proof. unfold Py.flush. by destruct (Py.truthy t). Qed.

Lemma split_scan_app_space s c t :
  Py.isspace c = true →
  Py.split_scan (s +:+ String c t)
    = ((Py.split_scan s).1, (Py.split_scan s).2 ++ Py.split t).
Proof.
  intros Hc. induction s as [|d s IH].
  - rewrite app_empty_l. simpl. unfold Py.split.
    destruct (Py.split_scan t). by rewrite Hc.
  - rewrite app_cons. simpl. rewrite IH.
    destruct (Py.split_scan s) as [u us]. simpl.
    destruct (Py.isspace d); [|done]. by rewrite flush_app.
Qed.

(** A whitespace character separates the tokens on its two sides. *)
Lemma split_app_space s c t :
  Py.isspace c = true →
  Py.split (s +:+ String c t) = Py.split s ++ Py.split t.
Proof.
  intros Hc. unfold Py.split at 1 2. rewrite split_scan_app_space by done.
  destruct (Py.split_scan s). simpl. apply flush_app.
Qed.

Lemma split_scan_token t :
  Py.all not_space t = true → Py.split_scan t = (t, []).
Proof.
  induction t as [|c t IH]; [done|]. simpl.
  intros [Hc Ht]%andb_true_iff. apply negb_true_iff in Hc.
  by rewrite IH, Hc.
Qed.

(** A non-empty string without whitespace is its own single token. *)
Lemma split_token t :
  t ≠ "" → Py.all not_space t = true → Py.split t = [t].
Proof.
  intros Hne Ht. unfold Py.split. rewrite split_scan_token by done.
  unfold Py.flush. by apply truthy_true in Hne as ->.
Qed.

Lemma flush_concat t ts : Py.concat (Py.flush t ts) = t +:+ Py.concat ts.
Proof. unfold Py.flush. by destruct t. Qed.

Lemma split_scan_concat s :
  (Py.split_scan s).1 +:+ Py.concat (Py.split_scan s).2 = Py.nonspace s.
Proof.
  induction s as [|c s IH]; [done|]. simpl.
  destruct (Py.split_scan s) as [t ts]. simpl in *.
  destruct (Py.isspace c); simpl.
  - by rewrite app_empty_l, flush_concat.
  - by rewrite app_cons, IH.
Qed.

(** The tokens are the text with the whitespace taken out. *)
Lemma split_concat s : Py.concat (Py.split s) = Py.nonspace s.
Proof.
  unfold Py.split. pose proof (split_scan_concat s) as H.
  destruct (Py.split_scan s). by rewrite flush_concat.
Qed.

Lemma flush_tokens t ts :
  Py.all not_space t = true → Forall is_token ts →
  Forall is_token (Py.flush t ts).
Proof.
  intros Ht Hts. unfold Py.flush. destruct (Py.truthy t) eqn:E; [|done].
  constructor; [|done]. split; [|done]. by apply truthy_true.
Qed.

Lemma split_scan_tokens s :
  Py.all not_space (Py.split_scan s).1 = true
  ∧ Forall is_token (Py.split_scan s).2.
Proof.
  induction s as [|c s [IH1 IH2]]; [by split|]. simpl.
  destruct (Py.split_scan s) as [t ts]. simpl in *.
  destruct (Py.isspace c) eqn:Hc; simpl.
  - split; [done|]. by apply flush_tokens.
  - split; [|done]. unfold not_space at 1. by rewrite Hc.
Qed.

Lemma split_tokens s : Forall is_token (Py.split s).
Proof.
  unfold Py.split. destruct (split_scan_tokens s) as [H1 H2].
  destruct (Py.split_scan s). by apply flush_tokens.
Qed.

Lemma nonspace_empty s : Py.nonspace s = "" → Py.all Py.isspace s = true.
Proof.
  induction s as [|c s IH]; [done|]. simpl.
  destruct (Py.isspace c); [done|]. discriminate.
Qed.

(** A string that is not all whitespace has at least one token. *)
Lemma split_not_nil s : Py.all Py.isspace s = false → Py.split s ≠ [].
Proof.
  intros Hs Hnil. pose proof (split_concat s) as H.
  rewrite Hnil in H. simpl in H. symmetry in H.
  apply nonspace_empty in H. congruence.
Qed.
End split_facts.

(** ** The segmenter and the tokenizer *)

Section segment_facts.
Implicit Types (s text : string) (texts ss : list string).

Lemma segment_cons text texts :
  segment (text :: texts) = segment_paragraph text ++ segment texts.
Proof. apply bind_cons. Qed.

Lemma segment_app texts texts' :
  segment (texts ++ texts') = segment texts ++ segment texts'.
Proof. apply bind_app. Qed.

Lemma segment_paragraph_filter text :
  segment_paragraph text
    = filter (λ s, s ≠ "")
        (Py.strip <$> Py.re_split sentence_endings text).
Proof.
  unfold segment_paragraph.
  induction (Py.re_split sentence_endings text) as [|p ps IH]; [done|].
  rewrite bind_cons, fmap_cons, filter_cons, IH.
  case_decide as Hp.
  - by apply truthy_true in Hp as ->.
  - by rewrite Hp.
Qed.

Lemma segment_paragraph_sentences text :
  Forall is_sentence (segment_paragraph text).
Proof.
  rewrite segment_paragraph_filter. apply Forall_forall.
  intros s [Hs (p & -> & _)%list_elem_of_fmap]%list_elem_of_filter.
  split; [done|]. by apply strip_not_space.
Qed.

Lemma segment_sentences texts : Forall is_sentence (segment texts).
Proof. apply Forall_bind, Forall_forall. intros. apply segment_paragraph_sentences. Qed.

Lemma segment_no_ending text :
  Py.all not_ending text = true →
  segment [text] = if Py.truthy (Py.strip text) then [Py.strip text] else [].
Proof.
  intros H. unfold segment. rewrite bind_singleton.
  unfold segment_paragraph. rewrite re_split_no_sep by done.
  rewrite bind_singleton. done.
Qed.

Lemma tokenize_cons s ss : tokenize (s :: ss) = Py.split s ++ tokenize ss.
Proof. apply bind_cons. Qed.

Lemma tokenize_app ss ss' : tokenize (ss ++ ss') = tokenize ss ++ tokenize ss'.
Proof. apply bind_app. Qed.

Lemma tokenize_length ss :
  length (tokenize ss) = sum_list (length ∘ Py.split <$> ss).
Proof.
  induction ss as [|s ss IH]; [done|].
  rewrite tokenize_cons, length_app, IH. done.
Qed.

Lemma tokenize_at_least ss :
  Forall is_sentence ss → length ss ≤ length (tokenize ss).
Proof.
  induction 1 as [|s ss [_ Hs] _ IH]; [done|].
  rewrite tokenize_cons, length_app. simpl.
  apply split_not_nil in Hs. destruct (Py.split s); [done|]. simpl. lia.
Qed.
End segment_facts.

(** C6: the Sentence Segmenter handles the paragraphs one by one and in
    order; in each it cuts at every '.', '!' and '?' (the pieces hold no
    such character and, put back around the cut characters, give the
    paragraph), trims each piece (what is trimmed off on both sides is
    whitespace, and trimming again changes nothing), and keeps the
    non-empty ones in order. "A. B! C?" gives ["A"; "B"; "C"], a paragraph
    without a terminator gives its trimmed text as the one sentence when
    that is non-empty, no paragraphs give no sentences, and no sentence is
    empty or only whitespace. *)
Theorem segmenter_contract (texts texts' : list string) (text : string) :
  segment [] = []
  ∧ segment (text :: texts) = segment_paragraph text ++ segment texts
  ∧ segment (texts ++ texts') = segment texts ++ segment texts'
  ∧ segment_paragraph text
      = filter (λ s, s ≠ "") (Py.strip <$> Py.re_split sentence_endings text)
  ∧ Forall (λ p, Py.all not_ending p = true)
      (Py.re_split sentence_endings text)
  ∧ interleave (Py.re_split sentence_endings text)
      (chars sentence_endings text) = text
  ∧ length (Py.re_split sentence_endings text)
    = S (length (chars sentence_endings text))
  ∧ (∃ l r, text = l +:+ Py.strip text +:+ r
            ∧ Py.all Py.isspace l = true ∧ Py.all Py.isspace r = true)
  ∧ Py.strip (Py.strip text) = Py.strip text
  ∧ segment ["A. B! C?"] = ["A"; "B"; "C"]
  ∧ (Py.all not_ending text = true → Py.strip text ≠ "" →
     segment [text] = [Py.strip text])
  ∧ (Py.all not_ending text = true → Py.strip text = "" →
     segment [text] = [])
  ∧ Forall is_sentence (segment texts)
  ∧ (∀ self url,
       Extractor.sentences
         <$> Extractor._fetch_data self (RawPage.mk url (Ok texts))
       = Ok (Some (segment texts))).
Proof.
  split_and!.
  - done.
  - apply segment_cons.
  - apply segment_app.
  - apply segment_paragraph_filter.
  - apply re_split_pieces.
  - apply re_split_interleave.
  - apply re_split_length.
  - apply strip_split.
  - apply strip_idemp.
  - done.
  - intros H Hne. rewrite segment_no_ending by done.
    by apply truthy_true in Hne as ->.
  - intros H He. rewrite segment_no_ending by done. by rewrite He.
  - apply segment_sentences.
  - done.
Qed.

Lemma segmenter_contract_witness :
  Py.all not_ending "  no terminator here " = true
  ∧ Py.strip "  no terminator here " ≠ ""
  ∧ segment ["  no terminator here "] = ["no terminator here"]
  ∧ Py.all not_ending "   " = true
  ∧ Py.strip "   " = ""
  ∧ segment ["   "] = [].
Proof.
  pose proof (segmenter_contract [] [] "  no terminator here ")
    as (_ & _ & _ & _ & _ & _ & _ & _ & _ & _ & H & _).
  pose proof (segmenter_contract [] [] "   ")
    as (_ & _ & _ & _ & _ & _ & _ & _ & _ & _ & _ & H' & _).
  split_and!; [done|done|by apply H|done|done|by apply H'].
Defined.

(** C9: the word list is a pure flattening of the sentence list. What
    [_fetch_data] stores as words is the tokenisation of what it stores as
    sentences; tokens are appended sentence by sentence, in order; the
    number of words is the sum of the per-sentence token counts; the
    tokens of a sentence are non-empty, hold no whitespace and are,
    concatenated, the sentence without its whitespace (so case and
    punctuation are kept); a whitespace character separates the tokens on
    its two sides and a token alone is returned as it is; and there are at
    least as many words as sentences, for the segmenter's output and for
    every list of sentences none of which is empty or only whitespace. *)
Theorem tokenizer_flattening
    (texts ss ss' : list string) (s t : string) (c : ascii) :
  let sentences := segment texts in
  let words := tokenize sentences in
  (∀ self url,
     Extractor._fetch_data self (RawPage.mk url (Ok texts))
     = Ok (Extractor.mk (Some sentences) (Some words)))
  ∧ tokenize [] = []
  ∧ tokenize (s :: ss) = Py.split s ++ tokenize ss
  ∧ tokenize (ss ++ ss') = tokenize ss ++ tokenize ss'
  ∧ length words = sum_list (length ∘ Py.split <$> sentences)
  ∧ length (tokenize ss) = sum_list (length ∘ Py.split <$> ss)
  ∧ Forall is_token (Py.split s)
  ∧ Py.concat (Py.split s) = Py.nonspace s
  ∧ (Py.isspace c = true →
     Py.split (s +:+ String c t) = Py.split s ++ Py.split t)
  ∧ (is_token t → Py.split t = [t])
  ∧ length sentences ≤ length words
  ∧ (Forall is_sentence ss → length ss ≤ length (tokenize ss)).
Proof.
  intros sentences words. split_and!.
  - done.
  - done.
  - apply tokenize_cons.
  - apply tokenize_app.
  - apply tokenize_length.
  - apply tokenize_length.
  - apply split_tokens.
  - apply split_concat.
  - apply split_app_space.
  - intros [Hne Ht]. by apply split_token.
  - apply tokenize_at_least, segment_sentences.
  - apply tokenize_at_least.
Qed.

Lemma tokenizer_flattening_witness :
  Py.isspace " " = true
  ∧ Py.split ("Hello," +:+ String " " "World") = ["Hello,"; "World"]
  ∧ is_token "World"
  ∧ Py.split "World" = ["World"]
  ∧ Forall is_sentence ["a b"; "c"]
  ∧ length ["a b"; "c"] ≤ length (tokenize ["a b"; "c"]).
Proof.
  pose proof (tokenizer_flattening [] ["a b"; "c"] [] "Hello," "World" " ")
    as (_ & _ & _ & _ & _ & _ & _ & _ & Hsp & Htok & _ & Hlen).
  assert (Ht : is_token "World") by (by split).
  assert (Hs : Forall is_sentence ["a b"; "c"])
    by (repeat constructor; done).
  split_and!; [done| |done| |done|].
  - by rewrite Hsp.
  - by apply Htok.
  - by apply Hlen.
Defined.

(** ** Dictionaries *)

Section first_seen_facts.
Implicit Types (w : string) (ws : list string).

Lemma elem_of_first_seen w ws : w ∈ first_seen ws ↔ w ∈ ws.
Proof.
  induction ws as [|x ws IH]; [done|]. csimpl.
  rewrite !elem_of_cons, list_elem_of_filter, IH.
  destruct (decide (w = x)); tauto.
Qed.

Lemma NoDup_first_seen ws : NoDup (first_seen ws).
Proof.
  induction ws as [|x ws IH]; [constructor|]. csimpl.
  apply NoDup_cons. split; [|by apply NoDup_filter].
  rewrite list_elem_of_filter. by intros [? _].
Qed.

Lemma first_seen_length_le ws ws' :
  ws ⊆ ws' → length (first_seen ws) ≤ length (first_seen ws').
Proof.
  intros Hsub. apply submseteq_length, NoDup_submseteq.
  - apply NoDup_first_seen.
  - intros w. rewrite !elem_of_first_seen. apply Hsub.
Qed.
End first_seen_facts.

Section dict_facts.
Context {V : Type}.
Implicit Types (k : string) (v : V) (d : list (string * V)).

Lemma set_keys_in k v d :
  k ∈ d.*1 → (Dict.set k v d).*1 = d.*1.
Proof.
  induction d as [|[k' v'] d IH]; csimpl.
  - by intros ?%elem_of_nil.
  - intros [->|Hk]%elem_of_cons; case_decide; csimpl; try done.
    by rewrite IH.
Qed.

Lemma set_keys_notin k v d :
  k ∉ d.*1 → Dict.set k v d = d ++ [(k, v)].
Proof.
  induction d as [|[k' v'] d IH]; csimpl; [done|].
  intros [??]%not_elem_of_cons. case_decide; [done|]. by rewrite IH.
Qed.

Lemma get_set_eq k v d : Dict.get k (Dict.set k v d) = Some v.
Proof.
  induction d as [|[k' v'] d IH]; csimpl.
  - by rewrite decide_True.
  - case_decide; csimpl; [subst; by rewrite decide_True|].
    by rewrite decide_False.
Qed.

Lemma get_set_ne k k' v d :
  k ≠ k' → Dict.get k' (Dict.set k v d) = Dict.get k' d.
Proof.
  intros Hne. induction d as [|[k'' v''] d IH]; csimpl.
  - by rewrite decide_False.
  - case_decide; csimpl; [subst|]; case_decide; try done.
Qed.

Lemma get_elem k v d :
  NoDup (d.*1) → (k, v) ∈ d ↔ Dict.get k d = Some v.
Proof.
  induction d as [|[k' v'] d IH]; csimpl.
  - intros _. by rewrite elem_of_nil.
  - intros [Hk' Hd]%NoDup_cons. rewrite elem_of_cons, IH by done.
    case_decide as Hk.
    + subst k'. split; [|intros [= ->]; by left].
      intros [[= ->]|Hget]; [done|]. exfalso. apply Hk'.
      apply IH in Hget; [|done].
      apply list_elem_of_fmap. by exists (k, v).
    + split; [|by right]. by intros [[= -> ->]|?].
Qed.

(** Items whose keys are pairwise different make a dict with exactly
    these items, in this order. *)
Lemma foldl_set_fresh d (items : list (string * V)) :
  NoDup (d.*1 ++ items.*1) →
  foldl (λ d kv, Dict.set kv.1 kv.2 d) d items = d ++ items.
Proof.
  induction items as [|[k v] items IH] in d |- *; csimpl.
  - intros _. by rewrite app_nil_r.
  - intros Hnd. rewrite set_keys_notin.
    + rewrite IH; [by rewrite <- app_assoc|].
      rewrite fmap_app, <- app_assoc. done.
    + apply NoDup_app in Hnd as (_ & Hnd & _). intros Hk.
      apply (Hnd _ Hk). left.
Qed.

Lemma of_list_NoDup (items : list (string * V)) :
  NoDup (items.*1) → Dict.of_list items = items.
Proof. intros. unfold Dict.of_list. by rewrite foldl_set_fresh. Qed.
End dict_facts.

(** A fold that sets one key per element: the keys of the result, in
    order. *)
Section fold_set.
Context {V X : Type}.
Variable key : X → string.
Variable val : list (string * V) → X → V.

Lemma foldl_set_keys d (l : list X) :
  (foldl (λ d x, Dict.set (key x) (val d x) d) d l).*1
  = d.*1
    ++ filter (λ k, k ∉ d.*1) (first_seen (key <$> l)).
Proof.
  induction l as [|x l IH] in d |- *; csimpl.
  - by rewrite filter_nil, app_nil_r.
  - rewrite IH. destruct (decide (key x ∈ d.*1)) as [Hx|Hx].
    + rewrite set_keys_in by done. f_equal.
      rewrite filter_cons_False by (by intros []).
      rewrite list_filter_filter. apply list_filter_iff.
      intros k. assert (k ∉ d.*1 → k ≠ key x) by (by intros ? ->).
      tauto.
    + rewrite set_keys_notin by done.
      assert ((d ++ [(key x, val d x)]).*1 = d.*1 ++ [key x]) as ->
        by (by rewrite fmap_app).
      rewrite <- app_assoc. csimpl. f_equal.
      rewrite filter_cons_True by done. f_equal.
      rewrite list_filter_filter. apply list_filter_iff.
      intros k. rewrite elem_of_app, list_elem_of_singleton. tauto.
Qed.

Lemma foldl_set_keys_nil (l : list X) :
  (foldl (λ d x, Dict.set (key x) (val d x) d) [] l).*1
  = first_seen (key <$> l).
Proof.
  rewrite foldl_set_keys. csimpl.
  induction (first_seen (key <$> l)) as [|k ks IH]; [done|].
  rewrite filter_cons_True by apply not_elem_of_nil. by rewrite IH.
Qed.
End fold_set.

Section get_facts.
Context {V : Type}.
Implicit Types (k : string) (v : V) (d : list (string * V)).

Lemma get_is_Some k d : k ∈ d.*1 → is_Some (Dict.get k d).
Proof.
  induction d as [|[k' v'] d IH]; csimpl.
  - by intros ?%elem_of_nil.
  - intros [->|Hk]%elem_of_cons; case_decide; try done; by eauto.
Qed.

(** Every item of the dict is computed from its key by [f]. *)
Lemma keyed_fmap (f : string → V) d :
  Forall (λ kv, kv.2 = f kv.1) d → d = (λ k, (k, f k)) <$> d.*1.
Proof.
  induction 1 as [|[k v] d Hkv _ IH]; [done|].
  csimpl in *. by rewrite <- IH, Hkv.
Qed.

Lemma set_keyed (f : string → V) k d :
  Forall (λ kv, kv.2 = f kv.1) d →
  Forall (λ kv, kv.2 = f kv.1) (Dict.set k (f k) d).
Proof.
  induction 1 as [|[k' v'] d Hkv Hd IH]; csimpl.
  - by repeat constructor.
  - case_decide; constructor; try done. by subst.
Qed.
End get_facts.

(** ** Stable descending sort *)

Section sorted_desc_facts.
Context {A : Type}.
Variable key : A → nat.
Implicit Types (x : A) (l : list A).

Lemma insert_desc_perm x l : insert_desc key x l ≡ₚ x :: l.
Proof.
  induction l as [|y l IH]; [done|]. simpl.
  destruct (key x <? key y); [|done]. rewrite IH. apply Permutation_swap.
Qed.

Lemma sorted_desc_perm l : sorted_desc key l ≡ₚ l.
Proof.
  induction l as [|x l IH]; [done|]. simpl.
  by rewrite insert_desc_perm, IH.
Qed.

Lemma insert_desc_sorted x l :
  StronglySorted (desc key) l →
  StronglySorted (desc key) (insert_desc key x l).
Proof.
  induction 1 as [|y l Hl IH Hy]; simpl; [by repeat constructor|].
  destruct (key x <? key y) eqn:Hxy.
  - apply Nat.ltb_lt in Hxy. constructor; [done|].
    rewrite insert_desc_perm. constructor; [|done].
    unfold desc. lia.
  - apply Nat.ltb_ge in Hxy. constructor; [by constructor|].
    constructor; [done|].
    eapply Forall_impl; [exact Hy|]. unfold desc. intros; simpl in *; lia.
Qed.

Lemma sorted_desc_sorted l : StronglySorted (desc key) (sorted_desc key l).
Proof.
  induction l as [|x l IH]; [constructor|]. by apply insert_desc_sorted.
Qed.

Lemma insert_desc_filter k x l :
  filter (λ a, key a = k) (insert_desc key x l)
  = filter (λ a, key a = k) (x :: l).
Proof.
  induction l as [|y l IH]; [done|]. simpl.
  destruct (key x <? key y) eqn:Hxy; [|done].
  apply Nat.ltb_lt in Hxy.
  rewrite (filter_cons _ y), IH, !filter_cons.
  repeat case_decide; try done; lia.
Qed.

(** Stability: the elements with one and the same key stay in their
    original order. *)
Lemma sorted_desc_stable k l :
  filter (λ a, key a = k) (sorted_desc key l) = filter (λ a, key a = k) l.
Proof.
  induction l as [|x l IH]; [done|]. simpl.
  by rewrite insert_desc_filter, !filter_cons, IH.
Qed.

(** Sorting a list that is already in descending order changes
    nothing. *)
Lemma sorted_desc_fixed l :
  StronglySorted (desc key) l → sorted_desc key l = l.
Proof.
  induction 1 as [|x l Hl IH Hx]; [done|]. simpl. rewrite IH.
  destruct Hx as [|y l Hy _]; [done|]. simpl.
  unfold desc in Hy. by rewrite (proj2 (Nat.ltb_ge _ _)).
Qed.

Lemma StronglySorted_sublist (R : relation A) l1 l2 :
  l1 `sublist_of` l2 → StronglySorted R l2 → StronglySorted R l1.
Proof.
  induction 1 as [|x l1 l2 Hsub IH|x l1 l2 Hsub IH];
    intros Hs; [done|..].
  - apply StronglySorted_inv in Hs as [Hs Hx]. constructor; [auto|].
    apply Forall_forall. intros y Hy.
    eapply Forall_forall; [exact Hx|]. by eapply elem_of_sublist.
  - apply StronglySorted_inv in Hs as [Hs _]. auto.
Qed.
End sorted_desc_facts.

(** ** The frequency table *)

Section counter_facts.
Implicit Types (w : string) (ws : list string) (d : list (string * nat)).

Lemma Counter_keys ws : (Counter ws).*1 = first_seen ws.
Proof.
  unfold Counter.
  rewrite (foldl_set_keys_nil id (λ d w, default 0 (Dict.get w d) + 1)).
  by rewrite list_fmap_id.
Qed.

Lemma Counter_NoDup ws : NoDup (Counter ws).*1.
Proof. rewrite Counter_keys. apply NoDup_first_seen. Qed.

Lemma occurrences_cons w x ws :
  occurrences w (x :: ws)
  = (if decide (x = w) then 1 else 0) + occurrences w ws.
Proof. unfold occurrences. rewrite filter_cons. by case_decide. Qed.

Lemma Counter_fold_get d ws w :
  default 0
    (Dict.get w
       (foldl (λ d w, Dict.set w (default 0 (Dict.get w d) + 1) d) d ws))
  = default 0 (Dict.get w d) + occurrences w ws.
Proof.
  induction ws as [|x ws IH] in d |- *; simpl.
  - unfold occurrences. simpl. lia.
  - rewrite IH, occurrences_cons. case_decide as Hx.
    + subst x. rewrite get_set_eq. simpl. lia.
    + by rewrite get_set_ne.
Qed.

(** The table holds exactly the words of the list, each with the number
    of its occurrences. *)
Lemma Counter_elem w n ws :
  (w, n) ∈ Counter ws ↔ w ∈ ws ∧ n = occurrences w ws.
Proof.
  rewrite get_elem by apply Counter_NoDup.
  pose proof (Counter_fold_get [] ws w) as Hget. simpl in Hget.
  fold (Counter ws) in Hget.
  rewrite <- elem_of_first_seen, <- Counter_keys. split.
  - intros Hn. rewrite Hn in Hget. simpl in Hget. split; [|done].
    apply (get_elem _ _ _ (Counter_NoDup ws)) in Hn.
    apply list_elem_of_fmap. by exists (w, n).
  - intros [[m Hm]%get_is_Some ->]. rewrite Hm in Hget |- *.
    simpl in Hget. by rewrite Hget.
Qed.
End counter_facts.

(** ** The frequency analyser *)

Section keys_facts.
Context {V : Type}.
Implicit Types (d : list (string * V)).

Lemma NoDup_keys_take n d : NoDup d.*1 → NoDup (take n d).*1.
Proof.
  intros Hd. rewrite fmap_take.
  eapply sublist_NoDup; [exact Hd|apply sublist_take].
Qed.

Lemma NoDup_keys_filter (P : string * V → Prop) `{!∀ x, Decision (P x)} d :
  NoDup d.*1 → NoDup (filter P d).*1.
Proof.
  intros Hd. eapply sublist_NoDup; [exact Hd|].
  apply fmap_sublist, sublist_filter.
Qed.

Lemma NoDup_keys_sorted (key : string * V → nat) d :
  NoDup d.*1 → NoDup (sorted_desc key d).*1.
Proof. intros Hd. by rewrite sorted_desc_perm. Qed.

Lemma foldl_set_keyed (f : string → V) d (items : list (string * V)) :
  Forall (λ kv, kv.2 = f kv.1) d →
  Forall (λ kv, kv.2 = f kv.1) items →
  Forall (λ kv, kv.2 = f kv.1)
    (foldl (λ d kv, Dict.set kv.1 kv.2 d) d items).
Proof.
  intros Hd Hitems. revert d Hd.
  induction Hitems as [|[k v] items Hkv _ IH]; intros d Hd; [done|].
  simpl in *. apply IH. subst v. by apply set_keyed.
Qed.

(** A dict comprehension [{k: f(k) for k in l}]: repeated keys collapse
    to the first occurrence. *)
Lemma of_list_keyed (f : string → V) (l : list string) :
  Dict.of_list ((λ k, (k, f k)) <$> l) = (λ k, (k, f k)) <$> first_seen l.
Proof.
  set (items := (λ k, (k, f k)) <$> l).
  assert (Hkeys : (Dict.of_list items).*1 = first_seen l).
  { unfold Dict.of_list.
    rewrite (foldl_set_keys_nil fst (λ _ kv, kv.2)).
    unfold items. rewrite <- list_fmap_compose. f_equal.
    apply list_fmap_id. }
  rewrite <- Hkeys. apply keyed_fmap, foldl_set_keyed; [done|].
  apply Forall_fmap, Forall_forall. done.
Qed.
End keys_facts.

Section frequency_facts.
Import PageAnalytics.
Implicit Types (words : list string).

Lemma word_freq_top20_eq words :
  word_freq_top20 words = take 20 (sorted_desc snd (Counter words)).
Proof.
  unfold word_freq_top20, most_common. apply of_list_NoDup.
  apply NoDup_keys_take, NoDup_keys_sorted, Counter_NoDup.
Qed.

Lemma word_freq_top20_NoDup words : NoDup (word_freq_top20 words).*1.
Proof.
  rewrite word_freq_top20_eq.
  apply NoDup_keys_take, NoDup_keys_sorted, Counter_NoDup.
Qed.

Lemma word_freq_top20_sorted words :
  StronglySorted (desc snd) (word_freq_top20 words).
Proof.
  rewrite word_freq_top20_eq.
  eapply StronglySorted_sublist; [apply sublist_take|].
  apply sorted_desc_sorted.
Qed.

Lemma top_10_word_freq_eq words :
  top_10_word_freq words = take 10 (word_freq_top20 words).
Proof.
  unfold top_10_word_freq.
  rewrite sorted_desc_fixed by apply word_freq_top20_sorted.
  apply of_list_NoDup, NoDup_keys_take, word_freq_top20_NoDup.
Qed.

Lemma filtered_word_freq_eq words :
  filtered_word_freq words
  = filter (λ kv, Py.lower kv.1 ∉ stopwords) (word_freq_top20 words).
Proof.
  unfold filtered_word_freq.
  apply of_list_NoDup, NoDup_keys_filter, word_freq_top20_NoDup.
Qed.

Lemma top_10_filtered_word_freq_eq words :
  top_10_filtered_word_freq words = take 10 (filtered_word_freq words).
Proof.
  unfold top_10_filtered_word_freq. rewrite sorted_desc_fixed.
  - apply of_list_NoDup, NoDup_keys_take. rewrite filtered_word_freq_eq.
    apply NoDup_keys_filter, word_freq_top20_NoDup.
  - rewrite filtered_word_freq_eq.
    eapply StronglySorted_sublist; [apply sublist_filter|].
    apply word_freq_top20_sorted.
Qed.
End frequency_facts.

(** ** The report *)

Section max_facts.
Context {A : Type}.
Variable key : A → nat.

Lemma max_from_spec (best : A) (l : list A) :
  let m := max_from key best l in
  (m = best ∧ Forall (λ t, key t ≤ key best) l)
  ∨ (∃ pre post, l = pre ++ m :: post
       ∧ key best < key m
       ∧ Forall (λ t, key t < key m) pre
       ∧ Forall (λ t, key t ≤ key m) post).
Proof.
  induction l as [|x l IH] in best |- *; simpl; [by left|].
  destruct (key best <? key x) eqn:Hx.
  - apply Nat.ltb_lt in Hx. right.
    destruct (IH x) as [[-> Hl]|(pre & post & Hl & Hm & Hpre & Hpost)].
    + by exists [], l.
    + exists (x :: pre), post. split_and!; [|lia| |done].
      * simpl. by rewrite <- Hl.
      * by constructor.
  - apply Nat.ltb_ge in Hx.
    destruct (IH best) as [[-> Hl]|(pre & post & Hl & Hm & Hpre & Hpost)].
    + left. split; [done|]. by constructor.
    + right. exists (x :: pre), post. split_and!; [|done| |done].
      * simpl. by rewrite <- Hl.
      * constructor; [lia|done].
Qed.

(** [max] returns the first element whose key is maximal. *)
Lemma py_max_first (l : list A) :
  l ≠ [] →
  ∃ m pre post, py_max key l = Ok m ∧ l = pre ++ m :: post
    ∧ Forall (λ t, key t < key m) pre
    ∧ Forall (λ t, key t ≤ key m) post.
Proof.
  destruct l as [|x l]; [done|]. intros _. simpl.
  destruct (max_from_spec x l) as [[Hm Hl]|(pre & post & Hl & Hm & Hpre & Hpost)].
  - exists (max_from key x l), [], l. rewrite Hm. by split_and!.
  - exists (max_from key x l), (x :: pre), post. split_and!; [done| | |done].
    + simpl. by rewrite <- Hl.
    + by constructor.
Qed.
End max_facts.

Section report_facts.
Import PageAnalytics.
Implicit Types (ws ss : list string) (url s : string).

(** The dictionary [make_analytics] leaves behind when it returns. *)
Lemma make_analytics_ok url ss ws data longest :
  py_max sentence_length ss = Ok longest →
  make_analytics (mk (PageContent.mk url (Some ss) (Some ws)) data)
  = Ok (mk (PageContent.mk url (Some ss) (Some ws))
          (<["longest_sentence" := VStr longest]>
           (<["median_sentence_length" :=
                VFloat (np_median (sentence_length <$> ss))]>
            (<["average_sentence_length" :=
                 VFloat (np_mean (sentence_length <$> ss))]>
             (<["top_10_longest_words" := VDict (longest_words_dict ws)]>
              (<["median_word_length" :=
                   VFloat (np_median (Py.len <$> ws))]>
               (<["average_word_length" :=
                    VFloat (np_mean (Py.len <$> ws))]>
                (<["top_10_words_filtered" :=
                     VDict (top_10_filtered_word_freq ws)]>
                 (<["top_10_words" :=
                      VDict (top_10_word_freq ws)]> data))))))))).
Proof. intros Hmax. unfold make_analytics. simpl. by rewrite Hmax. Qed.

(** A report exists exactly for a page content with both lists set and
    at least one sentence. *)
Lemma init_ok_inv pc pa :
  __init__ pc = Ok pa →
  ∃ ss ws longest,
    pc = PageContent.mk (PageContent.url pc) (Some ss) (Some ws)
    ∧ py_max sentence_length ss = Ok longest.
Proof.
  destruct pc as [url [ss|] [ws|]]; unfold __init__, make_analytics;
    simpl; try done.
  destruct (py_max sentence_length ss) as [longest|e] eqn:Hmax; [|done].
  intros _. by exists ss, ws, longest.
Qed.

Lemma init_lookups url ss ws pa :
  __init__ (PageContent.mk url (Some ss) (Some ws)) = Ok pa →
  page_content pa = PageContent.mk url (Some ss) (Some ws)
  ∧ analytics_data pa !! "top_10_words"
    = Some (VDict (top_10_word_freq ws))
  ∧ analytics_data pa !! "top_10_words_filtered"
    = Some (VDict (top_10_filtered_word_freq ws))
  ∧ analytics_data pa !! "average_word_length"
    = Some (VFloat (np_mean (Py.len <$> ws)))
  ∧ analytics_data pa !! "median_word_length"
    = Some (VFloat (np_median (Py.len <$> ws)))
  ∧ analytics_data pa !! "top_10_longest_words"
    = Some (VDict (longest_words_dict ws))
  ∧ analytics_data pa !! "average_sentence_length"
    = Some (VFloat (np_mean (sentence_length <$> ss)))
  ∧ analytics_data pa !! "median_sentence_length"
    = Some (VFloat (np_median (sentence_length <$> ss)))
  ∧ (∃ longest, py_max sentence_length ss = Ok longest
       ∧ analytics_data pa !! "longest_sentence" = Some (VStr longest))
  ∧ analytics_data pa !! "url" = None.
Proof.
  intros Hinit.
  destruct (init_ok_inv _ _ Hinit) as (ss' & ws' & longest & Heq & Hmax).
  injection Heq as <- <-. unfold __init__ in Hinit.
  rewrite (make_analytics_ok _ _ _ _ _ Hmax) in Hinit.
  injection Hinit as <-. simpl.
  split_and!; try (by simplify_map_eq).
  exists longest. by simplify_map_eq.
Qed.
End report_facts.

(** ** The claims about the report *)

(** C4: the frequency table lists the distinct words in first-seen order,
    each with its number of occurrences; ranking it by descending count
    keeps words of equal count in first-seen order; [raw_top20] is the
    first 20 entries of the ranking; and [top_10_raw], computed by ranking
    [raw_top20] again and taking 10, is the first 10 entries of
    [raw_top20], so each of its entries is an entry of [raw_top20] and
    counts at least as much as every entry of [raw_top20] left out. It is
    what the report stores under the key top_10_words. *)
Theorem top_10_raw_from_top20 (words : list string) :
  let table := Counter words in
  let ranking := sorted_desc snd table in
  let raw_top20 := PageAnalytics.word_freq_top20 words in
  let top_10_raw := PageAnalytics.top_10_word_freq words in
  table.*1 = first_seen words
  ∧ (∀ w n, (w, n) ∈ table ↔ w ∈ words ∧ n = occurrences w words)
  ∧ ranking ≡ₚ table
  ∧ StronglySorted (desc snd) ranking
  ∧ (∀ n, filter (λ e, e.2 = n) ranking = filter (λ e, e.2 = n) table)
  ∧ raw_top20 = take 20 ranking
  ∧ StronglySorted (desc snd) raw_top20
  ∧ top_10_raw = take 10 (sorted_desc snd raw_top20)
  ∧ top_10_raw = take 10 raw_top20
  ∧ top_10_raw ⊆ raw_top20
  ∧ (∀ e e', e ∈ top_10_raw → e' ∈ drop 10 raw_top20 → e'.2 ≤ e.2)
  ∧ (∀ url ss pa,
       PageAnalytics.__init__ (PageContent.mk url (Some ss) (Some words))
         = Ok pa →
       PageAnalytics.analytics_data pa !! "top_10_words"
         = Some (VDict top_10_raw)).
Proof.
  intros table ranking raw_top20 top_10_raw. split_and!.
  - apply Counter_keys.
  - intros w n. apply Counter_elem.
  - apply sorted_desc_perm.
  - apply sorted_desc_sorted.
  - intros n. apply (sorted_desc_stable snd).
  - apply word_freq_top20_eq.
  - apply word_freq_top20_sorted.
  - unfold top_10_raw. rewrite top_10_word_freq_eq.
    by rewrite sorted_desc_fixed by apply word_freq_top20_sorted.
  - apply top_10_word_freq_eq.
  - unfold top_10_raw. rewrite top_10_word_freq_eq. apply subseteq_take.
  - intros e e' He He'. unfold top_10_raw in He.
    rewrite top_10_word_freq_eq in He.
    pose proof (word_freq_top20_sorted words) as Hs.
    rewrite <- (take_drop 10 (PageAnalytics.word_freq_top20 words)) in Hs.
    exact (StronglySorted_app_1_elem_of _ _ _ _ _ Hs He He').
  - intros url ss pa Hinit. by apply init_lookups in Hinit as (_ & -> & _).
Qed.

Lemma top_10_raw_from_top20_witness :
  ∃ pa,
    PageAnalytics.__init__
      (PageContent.mk "u" (Some ["b a b"]) (Some ["b"; "a"; "b"])) = Ok pa
    ∧ PageAnalytics.analytics_data pa !! "top_10_words"
      = Some (VDict [("b", 2); ("a", 1)]).
Proof.
  pose proof (top_10_raw_from_top20 ["b"; "a"; "b"])
    as (_ & _ & _ & _ & _ & _ & _ & _ & _ & _ & _ & H).
  eexists. split; [reflexivity|]. by rewrite (H "u" ["b a b"] _ eq_refl).
Defined.

(** C5: [filtered] is [raw_top20] without the words whose lowercase form
    is one of the ten stopwords, and [top_10_filtered] is its first 10
    entries: every entry is an entry of [raw_top20], no entry's word is a
    stopword in lowercase, there are at most 10 entries, and when
    [filtered] has fewer than 10 entries [top_10_filtered] is [filtered]
    itself. It is what the report stores under the key
    top_10_words_filtered. *)
Theorem top_10_filtered_contract (words : list string) :
  let raw_top20 := PageAnalytics.word_freq_top20 words in
  let filtered := PageAnalytics.filtered_word_freq words in
  let top_10_filtered := PageAnalytics.top_10_filtered_word_freq words in
  let stop : gset string :=
    {[ "and"; "or"; "but"; "in"; "on"; "at"; "with"; "for"; "the"; "a" ]} in
  filtered = filter (λ e, Py.lower e.1 ∉ stop) raw_top20
  ∧ top_10_filtered = take 10 filtered
  ∧ top_10_filtered ⊆ raw_top20
  ∧ (∀ w n, (w, n) ∈ top_10_filtered → Py.lower w ∉ stop)
  ∧ length top_10_filtered ≤ 10
  ∧ (length filtered < 10 → top_10_filtered = filtered)
  ∧ (∀ url ss pa,
       PageAnalytics.__init__ (PageContent.mk url (Some ss) (Some words))
         = Ok pa →
       PageAnalytics.analytics_data pa !! "top_10_words_filtered"
         = Some (VDict top_10_filtered)).
Proof.
  intros raw_top20 filtered top_10_filtered stop.
  assert (Hsub : top_10_filtered ⊆ filtered).
  { unfold top_10_filtered. rewrite top_10_filtered_word_freq_eq.
    apply subseteq_take. }
  assert (Hf : filtered = filter (λ e, Py.lower e.1 ∉ stop) raw_top20)
    by apply filtered_word_freq_eq.
  split_and!.
  - done.
  - apply top_10_filtered_word_freq_eq.
  - intros e He. apply Hsub in He. rewrite Hf in He.
    by apply list_elem_of_filter in He as [_ ?].
  - intros w n He. apply Hsub in He. rewrite Hf in He.
    by apply list_elem_of_filter in He as [? _].
  - unfold top_10_filtered. rewrite top_10_filtered_word_freq_eq.
    rewrite length_take. lia.
  - intros Hlen. unfold top_10_filtered.
    rewrite top_10_filtered_word_freq_eq. apply take_ge.
    fold filtered. lia.
  - intros url ss pa Hinit.
    by apply init_lookups in Hinit as (_ & _ & -> & _).
Qed.

Lemma top_10_filtered_contract_witness :
  length (PageAnalytics.filtered_word_freq ["The"; "cat"; "the"; "cat"]) < 10
  ∧ PageAnalytics.top_10_filtered_word_freq ["The"; "cat"; "the"; "cat"]
    = [("cat", 2)]
  ∧ ("cat", 2) ∈ PageAnalytics.top_10_filtered_word_freq
                   ["The"; "cat"; "the"; "cat"]
  ∧ (Py.lower "cat" ∉ PageAnalytics.stopwords)
  ∧ (∃ pa,
      PageAnalytics.__init__
        (PageContent.mk "u" (Some ["The cat the cat"])
           (Some ["The"; "cat"; "the"; "cat"])) = Ok pa
      ∧ PageAnalytics.analytics_data pa !! "top_10_words_filtered"
        = Some (VDict [("cat", 2)])).
Proof.
  pose proof (top_10_filtered_contract ["The"; "cat"; "the"; "cat"])
    as (_ & _ & _ & Hstop & _ & Hall & Hinit).
  assert (Hlen :
    length (PageAnalytics.filtered_word_freq ["The"; "cat"; "the"; "cat"])
      < 10) by (vm_compute; lia).
  assert (Hin :
    ("cat", 2) ∈ PageAnalytics.top_10_filtered_word_freq
                   ["The"; "cat"; "the"; "cat"])
    by (rewrite (Hall Hlen); vm_compute; constructor).
  split_and!.
  - exact Hlen.
  - by rewrite (Hall Hlen).
  - exact Hin.
  - exact (Hstop _ _ Hin).
  - eexists. split; [reflexivity|].
    by rewrite (Hinit "u" ["The cat the cat"] _ eq_refl).
Defined.

(** C8: sorting the words by descending length keeps words of equal
    length in their original order; the mapping built from the first 10
    of them has one entry per distinct word among these 10, in order of
    first occurrence, and each entry's value is the length of its key;
    its keys are pairwise different words of the list, so it has no more
    entries than the list has distinct words, and at most 10. It is what
    the report stores under the key top_10_longest_words. *)
Theorem top_10_longest_words_contract (words : list string) :
  let ranked := sorted_desc Py.len words in
  let top := PageAnalytics.longest_words_dict words in
  ranked ≡ₚ words
  ∧ StronglySorted (desc Py.len) ranked
  ∧ (∀ n, filter (λ w, Py.len w = n) ranked
          = filter (λ w, Py.len w = n) words)
  ∧ top = (λ w, (w, Py.len w)) <$> first_seen (take 10 ranked)
  ∧ (∀ w n, (w, n) ∈ top → n = String.length w ∧ w ∈ words)
  ∧ NoDup top.*1
  ∧ length top ≤ length (first_seen words)
  ∧ length top ≤ 10
  ∧ (∀ url ss pa,
       PageAnalytics.__init__ (PageContent.mk url (Some ss) (Some words))
         = Ok pa →
       PageAnalytics.analytics_data pa !! "top_10_longest_words"
         = Some (VDict top)).
Proof.
  intros ranked top.
  assert (Htop : top = (λ w, (w, Py.len w)) <$> first_seen (take 10 ranked))
    by apply of_list_keyed.
  assert (Hkeys : top.*1 = first_seen (take 10 ranked)).
  { rewrite Htop, <- list_fmap_compose. apply list_fmap_id. }
  assert (Hsub : take 10 ranked ⊆ words).
  { intros w Hw. apply subseteq_take in Hw.
    unfold ranked in Hw. by rewrite sorted_desc_perm in Hw. }
  split_and!.
  - apply sorted_desc_perm.
  - apply sorted_desc_sorted.
  - intros n. apply (sorted_desc_stable Py.len).
  - done.
  - intros w n. rewrite Htop.
    intros (w' & [= -> ->] & Hw)%list_elem_of_fmap. split; [done|].
    apply Hsub. by apply elem_of_first_seen.
  - rewrite Hkeys. apply NoDup_first_seen.
  - rewrite <- (length_fmap fst top), Hkeys. by apply first_seen_length_le.
  - rewrite <- (length_fmap fst top), Hkeys.
    transitivity (length (take 10 ranked)); [|rewrite length_take; lia].
    apply submseteq_length, NoDup_submseteq; [apply NoDup_first_seen|].
    intros w. apply elem_of_first_seen.
  - intros url ss pa Hinit.
    by apply init_lookups in Hinit as (_ & _ & _ & _ & _ & -> & _).
Qed.

Lemma top_10_longest_words_contract_witness :
  ("bbb", 3) ∈ PageAnalytics.longest_words_dict ["a"; "bbb"; "a"; "bbb"]
  ∧ 3 = String.length "bbb"
  ∧ "bbb" ∈ ["a"; "bbb"; "a"; "bbb"]
  ∧ (∃ pa,
      PageAnalytics.__init__
        (PageContent.mk "u" (Some ["a bbb a bbb"])
           (Some ["a"; "bbb"; "a"; "bbb"])) = Ok pa
      ∧ PageAnalytics.analytics_data pa !! "top_10_longest_words"
        = Some (VDict [("bbb", 3); ("a", 1)])).
Proof.
  pose proof (top_10_longest_words_contract ["a"; "bbb"; "a"; "bbb"])
    as (_ & _ & _ & _ & Hval & _ & _ & _ & Hinit).
  assert (Hin :
    ("bbb", 3) ∈ PageAnalytics.longest_words_dict ["a"; "bbb"; "a"; "bbb"])
    by (vm_compute; constructor).
  destruct (Hval _ _ Hin) as [Hn Hw].
  split_and!; [exact Hin|exact Hn|exact Hw|].
  eexists. split; [reflexivity|].
  by rewrite (Hinit "u" ["a bbb a bbb"] _ eq_refl).
Defined.

(** C7: for a non-empty sentence list the report is built, and its
    longest_sentence is a sentence of the list such that every sentence
    before it has strictly fewer whitespace-separated tokens and every
    sentence after it has at most as many: the first sentence of maximal
    word count. *)
Theorem longest_sentence_first_max
    (url : string) (sentences words : list string) :
  sentences ≠ [] →
  ∃ pa longest pre post,
    PageAnalytics.__init__
      (PageContent.mk url (Some sentences) (Some words)) = Ok pa
    ∧ PageAnalytics.analytics_data pa !! "longest_sentence"
      = Some (VStr longest)
    ∧ sentences = pre ++ longest :: post
    ∧ Forall (λ s, length (Py.split s) < length (Py.split longest)) pre
    ∧ Forall (λ s, length (Py.split s) ≤ length (Py.split longest)) post.
Proof.
  intros Hne.
  destruct (py_max_first PageAnalytics.sentence_length sentences Hne)
    as (longest & pre & post & Hmax & Hsplit & Hpre & Hpost).
  eexists _, longest, pre, post. split_and!; [|..|done|done|done].
  - unfold PageAnalytics.__init__.
    by rewrite (make_analytics_ok _ _ _ _ _ Hmax).
  - simpl. by simplify_map_eq.
Qed.

Lemma longest_sentence_first_max_witness :
  ["a b"; "c d e"; "f"; "g h i"] ≠ []
  ∧ (∃ pa,
      PageAnalytics.__init__
        (PageContent.mk "u" (Some ["a b"; "c d e"; "f"; "g h i"])
           (Some ["a"])) = Ok pa
      ∧ PageAnalytics.analytics_data pa !! "longest_sentence"
        = Some (VStr "c d e")).
Proof.
  assert (Hne : ["a b"; "c d e"; "f"; "g h i"] ≠ ([] : list string))
    by done.
  destruct (longest_sentence_first_max "u" _ ["a"] Hne)
    as (pa & longest & pre & post & Hinit & Hlook & _).
  split; [exact Hne|]. exists pa. split; [exact Hinit|].
  vm_compute in Hinit. injection Hinit as <-. reflexivity.
Defined.

(** C1, as the code has it: no [EmptyContentError] exists. With an empty
    sentence list [make_analytics] raises the built-in [ValueError] of
    [max] on an empty sequence and no report is built; with an empty word
    list and at least one sentence it returns, and the mean and the median
    word length of the report are [nan]. For the output of the extractor
    the two lists are empty together, so such a document always ends in
    the [ValueError]. *)
Theorem empty_content_behaviour
    (url : string) (sentences words texts : list string) :
  (sentences = [] →
   PageAnalytics.__init__
     (PageContent.mk url (Some sentences) (Some words)) = Raise ValueError)
  ∧ (words = [] → sentences ≠ [] →
     ∃ pa,
       PageAnalytics.__init__
         (PageContent.mk url (Some sentences) (Some words)) = Ok pa
       ∧ PageAnalytics.analytics_data pa !! "average_word_length"
         = Some (VFloat NaN)
       ∧ PageAnalytics.analytics_data pa !! "median_word_length"
         = Some (VFloat NaN))
  ∧ (segment texts = [] ↔ tokenize (segment texts) = [])
  ∧ (segment texts = [] →
     analyse (RawPage.mk url (Ok texts)) = Raise ValueError).
Proof.
  split_and!.
  - by intros ->.
  - intros -> Hne.
    destruct (py_max_first PageAnalytics.sentence_length sentences Hne)
      as (longest & _ & _ & Hmax & _).
    eexists. split_and!.
    + unfold PageAnalytics.__init__.
      by rewrite (make_analytics_ok _ _ _ _ _ Hmax).
    + simpl. by simplify_map_eq.
    + simpl. by simplify_map_eq.
  - split; [by intros ->|]. intros Hw.
    pose proof (tokenize_at_least _ (segment_sentences texts)) as Hlen.
    rewrite Hw in Hlen. simpl in Hlen.
    destruct (segment texts); [done|]. simpl in Hlen. lia.
  - intros Hs. unfold analyse, Extractor.extract_sentences,
      Extractor.extract_words, Extractor._fetch_data. simpl.
    by rewrite Hs.
Qed.

Lemma empty_content_behaviour_witness :
  PageAnalytics.__init__ (PageContent.mk "u" (Some []) (Some ["a"]))
    = Raise ValueError
  ∧ (∃ pa,
       PageAnalytics.__init__ (PageContent.mk "u" (Some ["A"]) (Some []))
         = Ok pa
       ∧ PageAnalytics.analytics_data pa !! "average_word_length"
         = Some (VFloat NaN)
       ∧ PageAnalytics.analytics_data pa !! "median_word_length"
         = Some (VFloat NaN))
  ∧ segment [" . "; "!?"] = []
  ∧ analyse (RawPage.mk "u" (Ok [" . "; "!?"])) = Raise ValueError.
Proof.
  pose proof (empty_content_behaviour "u" [] ["a"] [" . "; "!?"])
    as (Hraise & _ & _ & Hdoc).
  pose proof (empty_content_behaviour "u" ["A"] [] [])
    as (_ & Hnan & _ & _).
  split_and!.
  - by apply Hraise.
  - by apply Hnan.
  - reflexivity.
  - by apply Hdoc.
Defined.

(** C1 as stated fails: a document without sentences ends in the
    [ValueError] of [max] on an empty sequence, which is not an
    [EmptyContentError], and an empty word list next to a sentence gives a
    report whose mean word length is [nan]. *)
Lemma empty_content_counterexample :
  analyse (RawPage.mk "u" (Ok [])) = Raise ValueError
  ∧ (∃ pa,
       PageAnalytics.__init__ (PageContent.mk "u" (Some ["A"]) (Some []))
         = Ok pa
       ∧ PageAnalytics.analytics_data pa !! "average_word_length"
         = Some (VFloat NaN)).
Proof. split; [reflexivity|]. eexists. split; reflexivity. Qed.

(** C2, at the code: [__str__] applies the format code [.2f] to the
    longest sentence, a string, so for every report that the constructor
    builds the rendering raises [ValueError] instead of returning text,
    whatever the built-in renderings of dicts and floats are. *)
Theorem str_raises_on_every_report
    (repr_dict : list (string * nat) → string)
    (str_float float_2f : npfloat → string)
    (pc : PageContent.t) (pa : PageAnalytics.t) :
  PageAnalytics.__init__ pc = Ok pa →
  PageAnalytics.__str__ repr_dict str_float float_2f pa = Raise ValueError.
Proof.
  intros Hinit.
  destruct (init_ok_inv _ _ Hinit) as (ss & ws & longest & Hpc & Hmax).
  rewrite Hpc in Hinit. unfold PageAnalytics.__init__ in Hinit.
  rewrite (make_analytics_ok _ _ _ _ _ Hmax) in Hinit.
  injection Hinit as <-.
  unfold PageAnalytics.__str__, PageAnalytics.getitem. simpl.
  by simplify_map_eq.
Qed.

Lemma str_raises_on_every_report_witness :
  ∃ pa,
    PageAnalytics.__init__ (PageContent.mk "u" (Some ["A"]) (Some ["A"]))
      = Ok pa
    ∧ PageAnalytics.__str__ (λ _, "{}") (λ _, "1.0") (λ _, "1.00") pa
      = Raise ValueError.
Proof.
  eexists. split; [reflexivity|].
  by apply (str_raises_on_every_report _ _ _
              (PageContent.mk "u" (Some ["A"]) (Some ["A"]))).
Defined.

(** C3, as the code has it: [save_to_json] stores the page address in the
    report's own dictionary under the key url before it serialises it.
    Every other key keeps its value, the page content is untouched, the
    record handed to the serialiser is the dictionary after the update,
    and a second call changes nothing more. A report fresh from the
    constructor has no such key, so the first call adds a field. *)
Theorem save_to_json_adds_url
    (self : PageAnalytics.t) (filename filename' : string) :
  let self' := (PageAnalytics.save_to_json self filename).1 in
  let written := (PageAnalytics.save_to_json self filename).2 in
  PageAnalytics.page_content self' = PageAnalytics.page_content self
  ∧ PageAnalytics.analytics_data self' !! "url"
    = Some (VStr (PageContent.url (PageAnalytics.page_content self)))
  ∧ (∀ key, key ≠ "url" →
       PageAnalytics.analytics_data self' !! key
       = PageAnalytics.analytics_data self !! key)
  ∧ written = (filename, PageAnalytics.analytics_data self')
  ∧ (PageAnalytics.save_to_json self' filename').1 = self'
  ∧ (∀ pc, PageAnalytics.__init__ pc = Ok self →
       PageAnalytics.analytics_data self !! "url" = None
       ∧ PageAnalytics.analytics_data self'
         ≠ PageAnalytics.analytics_data self).
Proof.
  intros self' written. destruct self as [pc data]. simpl. split_and!.
  - done.
  - apply lookup_insert_eq.
  - intros key Hkey. by apply lookup_insert_ne.
  - done.
  - unfold PageAnalytics.save_to_json. simpl. by rewrite insert_insert_eq.
  - intros pc' Hinit.
    destruct (init_ok_inv _ _ Hinit) as (ss & ws & longest & Hpc & _).
    rewrite Hpc in Hinit.
    apply init_lookups in Hinit as (_ & _ & _ & _ & _ & _ & _ & _ & _ & Hurl).
    simpl in Hurl. split; [done|]. intros Heq.
    rewrite <- Heq, lookup_insert_eq in Hurl. done.
Qed.

Lemma save_to_json_adds_url_witness :
  ∃ pa,
    PageAnalytics.__init__ (PageContent.mk "u" (Some ["A"]) (Some ["A"]))
      = Ok pa
    ∧ "longest_sentence" ≠ "url"
    ∧ PageAnalytics.analytics_data
        (PageAnalytics.save_to_json pa "out.json").1 !! "longest_sentence"
      = PageAnalytics.analytics_data pa !! "longest_sentence"
    ∧ PageAnalytics.analytics_data pa !! "url" = None.
Proof.
  destruct (PageAnalytics.__init__
              (PageContent.mk "u" (Some ["A"]) (Some ["A"])))
    as [pa|e] eqn:Hinit; [|by vm_compute in Hinit].
  exists pa.
  pose proof (save_to_json_adds_url pa "out.json" "out.json")
    as (_ & _ & Hkeep & _ & _ & Hfresh).
  assert (Hne : "longest_sentence" ≠ "url") by done.
  split_and!; [done|exact Hne|exact (Hkeep _ Hne)|].
  exact (proj1 (Hfresh _ Hinit)).
Defined.

(** C3 as stated fails: after [save_to_json] the in-memory report of a
    one-sentence page has the key url, which it did not have before. *)
Lemma save_to_json_counterexample :
  ∃ pa,
    PageAnalytics.__init__ (PageContent.mk "u" (Some ["A"]) (Some ["A"]))
      = Ok pa
    ∧ PageAnalytics.analytics_data pa !! "url" = None
    ∧ PageAnalytics.analytics_data
        (PageAnalytics.save_to_json pa "out.json").1 !! "url"
      = Some (VStr "u").
Proof. eexists. split; [reflexivity|]. split; reflexivity. Qed.

(** C10, at the code: [extract_words] reads the provided page only while
    the extractor holds no words. On such an extractor it does what its
    docstring says: the words are those of the provided page, the
    tokenisation of the segmentation of its paragraphs, whatever else the
    extractor and the page content held, and a page that cannot be
    acquired passes its error on. Once the extractor holds words the guard
    skips the fetch, and every later call hands out these same words and
    leaves the extractor as it is, for every page, also a different one
    and one that cannot be acquired: not the words of the provided page,
    against the docstring. *)
Theorem extract_words_cached
    (self self' : Extractor.t) (raw_page raw_page' : RawPage.t)
    (page_content : PageContent.t) :
  (Extractor.words self = None →
   Extractor.extract_words self raw_page page_content
   = texts ← RawPage.paragraphs raw_page;
     Ok (Extractor.mk (Some (segment texts))
           (Some (tokenize (segment texts))),
         PageContent.set_words page_content
           (Some (tokenize (segment texts)))))
  ∧ (Extractor.words self = None → Extractor.words self' = None →
     RawPage.paragraphs raw_page = RawPage.paragraphs raw_page' →
     Extractor.extract_words self raw_page page_content
     = Extractor.extract_words self' raw_page' page_content)
  ∧ (∀ cached, Extractor.words self = Some cached →
       Extractor.extract_words self raw_page page_content
       = Ok (self, PageContent.set_words page_content (Some cached))).
Proof.
  assert (Hfresh : ∀ e rp, Extractor.words e = None →
    Extractor.extract_words e rp page_content
    = texts ← RawPage.paragraphs rp;
      Ok (Extractor.mk (Some (segment texts))
            (Some (tokenize (segment texts))),
          PageContent.set_words page_content
            (Some (tokenize (segment texts))))).
  { intros e rp He. unfold Extractor.extract_words, Extractor._fetch_data.
    rewrite He. by destruct (RawPage.paragraphs rp). }
  split_and!.
  - apply Hfresh.
  - intros Hs Hs' Hp.
    by rewrite (Hfresh _ _ Hs), (Hfresh _ _ Hs'), Hp.
  - intros cached Hc. unfold Extractor.extract_words.
    rewrite Hc. simpl. by rewrite Hc.
Qed.

Lemma extract_words_cached_witness :
  Extractor.words Extractor.__init__ = None
  ∧ Extractor.extract_words Extractor.__init__
      (RawPage.mk "u" (Ok ["A b. C"])) (PageContent.__init__ "u")
    = Ok (Extractor.mk (Some ["A b"; "C"]) (Some ["A"; "b"; "C"]),
          PageContent.mk "u" None (Some ["A"; "b"; "C"]))
  ∧ Extractor.words (Extractor.mk (Some ["A b"; "C"]) (Some ["A"; "b"; "C"]))
    = Some ["A"; "b"; "C"]
  ∧ Extractor.extract_words
      (Extractor.mk (Some ["A b"; "C"]) (Some ["A"; "b"; "C"]))
      (RawPage.mk "v" (Raise (UrlError "v" "Failed to fetch data")))
      (PageContent.__init__ "v")
    = Ok (Extractor.mk (Some ["A b"; "C"]) (Some ["A"; "b"; "C"]),
          PageContent.mk "v" None (Some ["A"; "b"; "C"])).
Proof.
  pose proof (extract_words_cached Extractor.__init__ Extractor.__init__
                (RawPage.mk "u" (Ok ["A b. C"]))
                (RawPage.mk "u" (Ok ["A b. C"]))
                (PageContent.__init__ "u")) as (Hfresh & _ & _).
  pose proof (extract_words_cached
                (Extractor.mk (Some ["A b"; "C"]) (Some ["A"; "b"; "C"]))
                Extractor.__init__
                (RawPage.mk "v" (Raise (UrlError "v" "Failed to fetch data")))
                (RawPage.mk "v" (Raise (UrlError "v" "Failed to fetch data")))
                (PageContent.__init__ "v")) as (_ & _ & Hcached).
  split_and!.
  - reflexivity.
  - by rewrite (Hfresh eq_refl).
  - reflexivity.
  - by rewrite (Hcached _ eq_refl).
Defined.

(** C10 at the failing input: one extractor used for a first page and
    then for a second, different page hands the second page content the
    words of the first page, where the second page has other words. *)
Lemma extract_words_counterexample :
  ∃ extractor content1 content2,
    Extractor.extract_words Extractor.__init__
      (RawPage.mk "first" (Ok ["One two."])) (PageContent.__init__ "first")
    = Ok (extractor, content1)
    ∧ Extractor.extract_words extractor
        (RawPage.mk "second" (Ok ["Three."])) (PageContent.__init__ "second")
      = Ok (extractor, content2)
    ∧ PageContent.get_words content2 = Some ["One"; "two"]
    ∧ tokenize (segment ["Three."]) = ["Three"].
Proof. eexists _, _, _. split_and!; reflexivity. Qed.


(** * Further properties of the code *)

(** ** Sentences and words *)

Section clean_facts.
Variable P : ascii → bool.
Implicit Types (s t : string).

Lemma all_app s t : Py.all P (s +:+ t) = Py.all P s && Py.all P t.
Proof.
  induction s as [|c s IH]; [done|].
  rewrite app_cons. simpl. rewrite IH. by destruct (P c).
Qed.

Lemma all_lstrip s : Py.all P s = true → Py.all P (Py.lstrip s) = true.
Proof.
  induction s as [|c s IH]; [done|]. simpl.
  intros [Hc Hs]%andb_true_iff. destruct (Py.isspace c); [auto|].
  simpl. by rewrite Hc, Hs.
Qed.

Lemma all_rstrip s : Py.all P s = true → Py.all P (Py.rstrip s) = true.
Proof.
  induction s as [|c s IH]; [done|]. simpl.
  intros [Hc Hs]%andb_true_iff. specialize (IH Hs).
  destruct (Py.rstrip s) as [|d u].
  - destruct (Py.isspace c); [done|]. simpl. by rewrite Hc.
  - change (Py.all P (String c (String d u)))
      with (P c && Py.all P (String d u)). by rewrite Hc, IH.
Qed.

Lemma all_strip s : Py.all P s = true → Py.all P (Py.strip s) = true.
Proof. intros H. by apply all_lstrip, all_rstrip. Qed.

Lemma all_split_scan s :
  Py.all P s = true →
  Py.all P (Py.split_scan s).1 = true
  ∧ Forall (λ t, Py.all P t = true) (Py.split_scan s).2.
Proof.
  induction s as [|c s IH]; [by split|]. simpl.
  intros [Hc Hs]%andb_true_iff. destruct (IH Hs) as [Ht Hts].
  destruct (Py.split_scan s) as [t ts]. simpl in *.
  destruct (Py.isspace c); simpl.
  - split; [done|]. unfold Py.flush. destruct (Py.truthy t); [|done].
    by constructor.
  - by rewrite Hc, Ht.
Qed.

Lemma all_split s :
  Py.all P s = true → Forall (λ t, Py.all P t = true) (Py.split s).
Proof.
  intros Hs. destruct (all_split_scan s Hs) as [Ht Hts]. unfold Py.split.
  destruct (Py.split_scan s) as [t ts]. simpl in *. unfold Py.flush.
  destruct (Py.truthy t); [|done]. by constructor.
Qed.
End clean_facts.

Section normal_form_facts.
Implicit Types (s text : string) (texts ss : list string).

Lemma rstrip_all_space s : Py.all Py.isspace s = true → Py.rstrip s = "".
Proof.
  induction s as [|c s IH]; [done|].
  simpl. intros [Hc Hs]%andb_true_iff. by rewrite IH, Hc.
Qed.

Lemma strip_empty_iff s : Py.strip s = "" ↔ Py.all Py.isspace s = true.
Proof.
  split.
  - intros He. destruct (strip_split s) as (l & r & Hs & Hl & Hr).
    rewrite He, app_empty_l in Hs. rewrite Hs, all_app, Hl, Hr. done.
  - intros Hs. unfold Py.strip. by rewrite rstrip_all_space.
Qed.

Lemma segment_paragraph_clean text :
  Forall (λ s, is_sentence s ∧ Py.all not_ending s = true ∧ Py.strip s = s)
    (segment_paragraph text).
Proof.
  rewrite segment_paragraph_filter. apply Forall_forall.
  intros s [Hs (p & -> & Hp)%list_elem_of_fmap]%list_elem_of_filter.
  split_and!.
  - split; [done|]. by apply strip_not_space.
  - apply all_strip.
    pose proof (re_split_pieces sentence_endings text) as Hall.
    by apply (proj1 (Forall_forall _ _) Hall).
  - apply strip_idemp.
Qed.

Lemma segment_clean texts :
  Forall (λ s, is_sentence s ∧ Py.all not_ending s = true ∧ Py.strip s = s)
    (segment texts).
Proof.
  apply Forall_bind, Forall_forall. intros. apply segment_paragraph_clean.
Qed.

Lemma segment_fixed ss :
  Forall (λ s, is_sentence s ∧ Py.all not_ending s = true ∧ Py.strip s = s)
    ss →
  segment ss = ss.
Proof.
  induction 1 as [|s ss ([Hne _] & Hend & Hstrip) _ IH]; [done|].
  rewrite segment_cons, IH.
  pose proof (segment_no_ending s Hend) as Hs.
  unfold segment in Hs. rewrite bind_singleton in Hs.
  rewrite Hs, Hstrip. by apply truthy_true in Hne as ->.
Qed.

Lemma tokenize_fixed ws : Forall is_token ws → tokenize ws = ws.
Proof.
  induction 1 as [|w ws [Hne Hw] _ IH]; [done|].
  by rewrite tokenize_cons, IH, split_token.
Qed.

Lemma tokenize_tokens ss : Forall is_token (tokenize ss).
Proof. apply Forall_bind, Forall_forall. intros. apply split_tokens. Qed.

Lemma re_split_blank text :
  Forall (λ p, Py.all Py.isspace p = true)
    (Py.re_split sentence_endings text)
  ↔ Py.all blank text = true.
Proof.
  induction text as [|c text IH]; [by split; [|repeat constructor]|].
  simpl. unfold blank at 1.
  pose proof (re_split_not_nil sentence_endings text) as Hne.
  destruct (sentence_endings c) eqn:Hc; simpl.
  - rewrite <- IH. split; [by inversion 1|by constructor].
  - destruct (Py.re_split sentence_endings text) as [|p ps]; [done|].
    simpl. rewrite andb_true_iff, <- IH, !Forall_cons. simpl.
    rewrite andb_true_iff. tauto.
Qed.

Lemma segment_paragraph_nil text :
  segment_paragraph text = [] ↔ Py.all blank text = true.
Proof.
  rewrite <- re_split_blank, segment_paragraph_filter.
  induction (Py.re_split sentence_endings text) as [|p ps IH].
  - split; [constructor|done].
  - rewrite fmap_cons, filter_cons, Forall_cons, <- IH, <- strip_empty_iff.
    case_decide as Hp; [|tauto]. split; [done|by intros []].
Qed.

Lemma segment_nil texts :
  segment texts = [] ↔ Forall (λ text, Py.all blank text = true) texts.
Proof.
  induction texts as [|text texts IH]; [by split|].
  rewrite segment_cons, Forall_cons, <- IH, <- segment_paragraph_nil.
  split; [by intros [??]%app_eq_nil|by intros [-> ->]].
Qed.

Lemma segment_paragraph_length text :
  length (segment_paragraph text) ≤ S (length (chars sentence_endings text)).
Proof.
  rewrite segment_paragraph_filter, <- re_split_length.
  etrans; [apply length_filter|]. by rewrite length_fmap.
Qed.
End normal_form_facts.

(** X1: every sentence the extractor keeps is non-empty, not only
    whitespace, trimmed, and free of '.', '!' and '?'; every word it keeps
    is non-empty and free of whitespace and of these three characters. *)
Theorem extracted_text_is_clean (texts : list string) :
  Forall (λ s, is_sentence s ∧ Py.all not_ending s = true ∧ Py.strip s = s)
    (segment texts)
  ∧ Forall (λ w, is_token w ∧ Py.all not_ending w = true)
      (tokenize (segment texts)).
Proof.
  split; [apply segment_clean|].
  apply Forall_and. split; [apply tokenize_tokens|].
  apply Forall_bind. eapply Forall_impl; [apply segment_clean|].
  intros s (_ & Hend & _). by apply all_split.
Qed.

(** X2: sentences and words are in normal form: segmenting the extracted
    sentences again as if they were paragraphs gives the same sentences,
    and tokenising the extracted words again gives the same words. *)
Theorem extraction_is_idempotent (texts sentences : list string) :
  segment (segment texts) = segment texts
  ∧ tokenize (tokenize sentences) = tokenize sentences.
Proof.
  split; [apply segment_fixed, segment_clean|].
  apply tokenize_fixed, tokenize_tokens.
Qed.

(** X3: a paragraph gives no sentence exactly when it consists of
    whitespace and the characters '.', '!' and '?' only, and it never gives
    more sentences than it has such terminators plus one; a document gives
    no sentence exactly when all its paragraphs are of that kind. *)
Theorem blank_paragraphs_give_no_sentence
    (text : string) (texts : list string) :
  (segment_paragraph text = [] ↔ Py.all blank text = true)
  ∧ length (segment_paragraph text)
    ≤ S (length (chars sentence_endings text))
  ∧ (segment texts = [] ↔ Forall (λ text, Py.all blank text = true) texts).
Proof.
  split_and!.
  - apply segment_paragraph_nil.
  - apply segment_paragraph_length.
  - apply segment_nil.
Qed.

(** ** The extractor *)

Section extractor_facts.
Import Extractor.
Implicit Types (e : Extractor.t) (rp : RawPage.t) (pc : PageContent.t).

Lemma extract_sentences_fresh e rp pc :
  sentences e = None →
  extract_sentences e rp pc
  = texts ← RawPage.paragraphs rp;
    Ok (mk (Some (segment texts)) (Some (tokenize (segment texts))),
        PageContent.set_sentences pc (Some (segment texts))).
Proof.
  intros He. unfold extract_sentences, _fetch_data. rewrite He.
  by destruct (RawPage.paragraphs rp).
Qed.

Lemma extract_words_fresh e rp pc :
  words e = None →
  extract_words e rp pc
  = texts ← RawPage.paragraphs rp;
    Ok (mk (Some (segment texts)) (Some (tokenize (segment texts))),
        PageContent.set_words pc (Some (tokenize (segment texts)))).
Proof.
  intros He. unfold extract_words, _fetch_data. rewrite He.
  by destruct (RawPage.paragraphs rp).
Qed.

Lemma extract_sentences_filled e rp pc ss :
  sentences e = Some ss →
  extract_sentences e rp pc = Ok (e, PageContent.set_sentences pc (Some ss)).
Proof.
  intros He. unfold extract_sentences. rewrite He. simpl. by rewrite He.
Qed.

Lemma extract_words_filled e rp pc ws :
  words e = Some ws →
  extract_words e rp pc = Ok (e, PageContent.set_words pc (Some ws)).
Proof. intros He. unfold extract_words. rewrite He. simpl. by rewrite He. Qed.
End extractor_facts.

(** X4: an extractor that starts empty stays consistent: it holds nothing,
    or the sentences of some paragraphs together with exactly their words.
    Both operations keep this, and each hands the page content the very
    list the extractor holds afterwards and leaves the other attributes of
    the page content alone. *)
Theorem extractor_stays_consistent
    (e e' : Extractor.t) (rp : RawPage.t) (pc pc' : PageContent.t) :
  consistent Extractor.__init__
  ∧ (consistent e → Extractor.extract_sentences e rp pc = Ok (e', pc') →
     consistent e'
     ∧ PageContent.sentences pc' = Extractor.sentences e'
     ∧ is_Some (Extractor.sentences e')
     ∧ PageContent.words pc' = PageContent.words pc
     ∧ PageContent.url pc' = PageContent.url pc)
  ∧ (consistent e → Extractor.extract_words e rp pc = Ok (e', pc') →
     consistent e'
     ∧ PageContent.words pc' = Extractor.words e'
     ∧ is_Some (Extractor.words e')
     ∧ PageContent.sentences pc' = PageContent.sentences pc
     ∧ PageContent.url pc' = PageContent.url pc).
Proof.
  split_and!.
  - by left.
  - intros [[Hs Hw]|(texts & Hs & Hw)] Hex.
    + rewrite (extract_sentences_fresh _ _ _ Hs) in Hex.
      destruct (RawPage.paragraphs rp) as [texts|]; [|done].
      injection Hex as <- <-.
      split_and!; try done. right. by exists texts.
    + rewrite (extract_sentences_filled _ _ _ _ Hs) in Hex.
      injection Hex as <- <-.
      split_and!; try done; try (by rewrite Hs). right. by exists texts.
  - intros [[Hs Hw]|(texts & Hs & Hw)] Hex.
    + rewrite (extract_words_fresh _ _ _ Hw) in Hex.
      destruct (RawPage.paragraphs rp) as [texts|]; [|done].
      injection Hex as <- <-.
      split_and!; try done. right. by exists texts.
    + rewrite (extract_words_filled _ _ _ _ Hw) in Hex.
      injection Hex as <- <-.
      split_and!; try done; try (by rewrite Hw). right. by exists texts.
Qed.

Lemma extractor_stays_consistent_witness :
  consistent Extractor.__init__
  ∧ consistent (Extractor.mk (Some ["A b"]) (Some ["A"; "b"]))
  ∧ PageContent.words (PageContent.mk "u" None (Some ["A"; "b"]))
    = Some ["A"; "b"].
Proof.
  pose proof (extractor_stays_consistent Extractor.__init__
                (Extractor.mk (Some ["A b"]) (Some ["A"; "b"]))
                (RawPage.mk "u" (Ok ["A b."]))
                (PageContent.__init__ "u")
                (PageContent.mk "u" None (Some ["A"; "b"])))
    as (Hinit & _ & Hwords).
  destruct (Hwords Hinit eq_refl) as (Hc & Hw & _).
  split_and!; [exact Hinit|exact Hc|exact Hw].
Defined.

(** X5: on a consistent extractor the two extractions commute: sentences
    first and words second gives the same extractor and the same page
    content as words first and sentences second, and the same error when
    the page cannot be acquired. *)
Theorem extraction_order_is_irrelevant
    (e : Extractor.t) (rp : RawPage.t) (pc : PageContent.t) :
  consistent e →
  ('(e1, pc1) ← Extractor.extract_sentences e rp pc;
   Extractor.extract_words e1 rp pc1)
  = ('(e1, pc1) ← Extractor.extract_words e rp pc;
     Extractor.extract_sentences e1 rp pc1).
Proof.
  intros [[Hs Hw]|(texts & Hs & Hw)].
  - rewrite (extract_sentences_fresh _ _ _ Hs),
      (extract_words_fresh _ _ _ Hw).
    by destruct (RawPage.paragraphs rp).
  - rewrite (extract_sentences_filled _ _ _ _ Hs),
      (extract_words_filled _ _ _ _ Hw). simpl.
    by rewrite (extract_sentences_filled _ _ _ _ Hs),
      (extract_words_filled _ _ _ _ Hw).
Qed.

Lemma extraction_order_is_irrelevant_witness :
  consistent Extractor.__init__
  ∧ ('(e1, pc1) ← Extractor.extract_words Extractor.__init__
                    (RawPage.mk "u" (Ok ["A b. C"]))
                    (PageContent.__init__ "u");
     Extractor.extract_sentences e1 (RawPage.mk "u" (Ok ["A b. C"])) pc1)
    = Ok (Extractor.mk (Some ["A b"; "C"]) (Some ["A"; "b"; "C"]),
          PageContent.mk "u" (Some ["A b"; "C"]) (Some ["A"; "b"; "C"])).
Proof.
  assert (Hinit : consistent Extractor.__init__) by by left.
  split; [exact Hinit|].
  by rewrite <- (extraction_order_is_irrelevant Extractor.__init__
                   (RawPage.mk "u" (Ok ["A b. C"]))
                   (PageContent.__init__ "u") Hinit).
Defined.

(** ** Building the report *)

Section constructor_facts.
Import PageAnalytics.
Implicit Types (pc : PageContent.t) (ss ws : list string).

Lemma py_max_nonempty {A} (key : A → nat) (l : list A) :
  l ≠ [] → ∃ m, py_max key l = Ok m.
Proof. destruct l as [|x l]; [done|]. intros _. by eexists. Qed.

Lemma init_ok url ss ws :
  ss ≠ [] →
  ∃ pa, __init__ (PageContent.mk url (Some ss) (Some ws)) = Ok pa.
Proof.
  intros [longest Hmax]%(py_max_nonempty sentence_length).
  unfold __init__. rewrite (make_analytics_ok _ _ _ _ _ Hmax). by eexists.
Qed.

(** What [make_analytics] returns when it returns. *)
Lemma make_analytics_inv (self self' : t) :
  make_analytics self = Ok self' →
  ∃ url ss ws longest,
    page_content self = PageContent.mk url (Some ss) (Some ws)
    ∧ py_max sentence_length ss = Ok longest
    ∧ make_analytics self' = Ok self'.
Proof.
  destruct self as [[url [ss|] [ws|]] data];
    unfold make_analytics at 1; simpl; try done.
  destruct (py_max sentence_length ss) as [longest|] eqn:Hmax; [|done].
  simpl. intros [= <-]. exists url, ss, ws, longest.
  split_and!; [done..|].
  rewrite (make_analytics_ok _ _ _ _ _ Hmax). do 2 f_equal.
  apply map_eq. intros k. rewrite !lookup_insert.
  repeat (case_decide; [done|]). done.
Qed.
End constructor_facts.

(** X6: the constructor of the report succeeds exactly when the page
    content has a sentence list and a word list and at least one sentence.
    A list that was never set makes it raise [TypeError], and an empty
    sentence list next to a word list makes it raise [ValueError]. *)
Theorem constructor_outcomes (pc : PageContent.t) :
  (PageContent.words pc = None ∨ PageContent.sentences pc = None →
   PageAnalytics.__init__ pc = Raise TypeError)
  ∧ (is_Some (PageContent.words pc) → PageContent.sentences pc = Some [] →
     PageAnalytics.__init__ pc = Raise ValueError)
  ∧ ((∃ pa, PageAnalytics.__init__ pc = Ok pa)
     ↔ ∃ ss ws, PageContent.sentences pc = Some ss
                ∧ PageContent.words pc = Some ws ∧ ss ≠ []).
Proof.
  destruct pc as [url [ss|] [ws|]]; simpl; split_and!;
    try (by intros [?|?]); try (by intros [? ?]); try done.
  - by intros _ [= ->].
  - split.
    + intros [pa Hpa]. exists ss, ws. split_and!; [done..|].
      by intros ->.
    + intros (? & ? & [= <-] & [= <-] & Hne). by apply init_ok.
  - split; [by intros [? ?]|]. by intros (? & ? & _ & ? & _).
  - split; [by intros [? ?]|]. by intros (? & ? & ? & _).
  - split; [by intros [? ?]|]. by intros (? & ? & ? & _).
Qed.

Lemma constructor_outcomes_witness :
  PageAnalytics.__init__ (PageContent.__init__ "u") = Raise TypeError
  ∧ PageAnalytics.__init__ (PageContent.mk "u" (Some []) (Some ["a"]))
    = Raise ValueError
  ∧ (∃ pa, PageAnalytics.__init__ (PageContent.mk "u" (Some ["a"]) (Some []))
           = Ok pa).
Proof.
  pose proof (constructor_outcomes (PageContent.__init__ "u"))
    as (Htype & _ & _).
  pose proof (constructor_outcomes
                (PageContent.mk "u" (Some []) (Some ["a"])))
    as (_ & Hvalue & _).
  pose proof (constructor_outcomes
                (PageContent.mk "u" (Some ["a"]) (Some [])))
    as (_ & _ & Hok).
  split_and!.
  - apply Htype. by left.
  - by apply Hvalue.
  - apply Hok. by exists ["a"], [].
Defined.

(** X7: [make_analytics] is idempotent: run again on the object it
    returned, whatever the dictionary held before the first run, it
    returns that object unchanged. In particular it keeps a key url that
    [save_to_json] has added. *)
Theorem make_analytics_is_idempotent
    (self self' : PageAnalytics.t) (filename : string) :
  PageAnalytics.make_analytics self = Ok self' →
  PageAnalytics.make_analytics self' = Ok self'
  ∧ PageAnalytics.make_analytics
      (PageAnalytics.save_to_json self' filename).1
    = Ok (PageAnalytics.save_to_json self' filename).1.
Proof.
  intros Hrun.
  destruct (make_analytics_inv _ _ Hrun) as (_ & _ & _ & _ & _ & _ & Hagain).
  split; [done|].
  destruct (make_analytics_inv _ _ Hagain) as (url & ss & ws & longest & Hpc & Hmax & _).
  destruct self' as [pc data]. simpl in *. subst pc.
  rewrite (make_analytics_ok _ _ _ _ _ Hmax) in Hagain.
  rewrite (make_analytics_ok _ _ _ _ _ Hmax).
  injection Hagain as Hdata. do 2 f_equal.
  apply map_eq. intros k.
  apply (f_equal (λ m : gmap string value, m !! k)) in Hdata.
  rewrite !lookup_insert in Hdata. rewrite !(lookup_insert _ _ k).
  repeat (case_decide; simplify_eq); done.
Qed.

Lemma make_analytics_is_idempotent_witness :
  ∃ pa,
    PageAnalytics.__init__ (PageContent.mk "u" (Some ["A b"]) (Some ["A"; "b"]))
      = Ok pa
    ∧ PageAnalytics.make_analytics pa = Ok pa.
Proof.
  destruct (PageAnalytics.__init__
              (PageContent.mk "u" (Some ["A b"]) (Some ["A"; "b"])))
    as [pa|e] eqn:Hinit; [|by vm_compute in Hinit].
  exists pa. split; [done|].
  exact (proj1 (make_analytics_is_idempotent _ pa "f" Hinit)).
Defined.

(** ** The statistics *)

Section statistics_facts.
Implicit Types (l : list nat) (lo hi s n : nat).

Lemma Qc_of_nat_le n m : n ≤ m → (Qc_of_nat n ≤ Qc_of_nat m)%Qc.
Proof.
  intros H. unfold Qc_of_nat. apply (proj1 (Z2Qc_inj_le _ _)). lia.
Qed.

Lemma Qc_of_nat_mul n m : (Qc_of_nat n * Qc_of_nat m)%Qc = Qc_of_nat (n * m).
Proof. unfold Qc_of_nat. by rewrite <- Z2Qc_inj_mul, Nat2Z.inj_mul. Qed.

Lemma Qc_of_nat_add n m : (Qc_of_nat n + Qc_of_nat m)%Qc = Qc_of_nat (n + m).
Proof. unfold Qc_of_nat. by rewrite <- Z2Qc_inj_add, Nat2Z.inj_add. Qed.

Lemma Qc_of_nat_pos n : 0 < n → (0 < Qc_of_nat n)%Qc.
Proof.
  intros H. unfold Qc_of_nat. rewrite <- Z2Qc_inj_0.
  apply (proj1 (Z2Qc_inj_lt _ _)). lia.
Qed.

(** A quotient of naturals between two natural bounds. *)
Lemma Qc_div_bounds lo hi s n :
  0 < n → lo * n ≤ s → s ≤ hi * n →
  (Qc_of_nat lo ≤ Qc_of_nat s / Qc_of_nat n)%Qc
  ∧ (Qc_of_nat s / Qc_of_nat n ≤ Qc_of_nat hi)%Qc.
Proof.
  intros Hn Hlo Hhi. pose proof (Qc_of_nat_pos n Hn) as Hpos.
  assert (Hne : Qc_of_nat n ≠ 0%Qc).
  { intros H0. rewrite H0 in Hpos. by apply Qclt_not_eq in Hpos. }
  assert (Hq : (Qc_of_nat s / Qc_of_nat n * Qc_of_nat n)%Qc = Qc_of_nat s).
  { rewrite Qcmult_comm. by apply Qcmult_div_r. }
  split; apply (Qcmult_lt_0_le_reg_r _ _ (Qc_of_nat n) Hpos);
    rewrite Hq, Qc_of_nat_mul; by apply Qc_of_nat_le.
Qed.

Lemma sum_list_bounds lo hi l :
  Forall (λ x, lo ≤ x ≤ hi) l →
  lo * length l ≤ sum_list l ∧ sum_list l ≤ hi * length l.
Proof. induction 1 as [|x l [??] _ [??]]; simpl; lia. Qed.

Lemma np_mean_nonempty l :
  l ≠ [] →
  np_mean l = Fin (Qc_of_nat (sum_list l) / Qc_of_nat (length l))%Qc.
Proof. by destruct l. Qed.

Lemma np_mean_bounds lo hi l :
  l ≠ [] → Forall (λ x, lo ≤ x ≤ hi) l →
  ∃ q, np_mean l = Fin q ∧ (Qc_of_nat lo ≤ q)%Qc ∧ (q ≤ Qc_of_nat hi)%Qc.
Proof.
  intros Hne Hl. rewrite np_mean_nonempty by done. eexists. split; [done|].
  destruct (sum_list_bounds _ _ _ Hl).
  apply Qc_div_bounds; [|done..]. destruct l; [done|]. simpl. lia.
Qed.

Lemma merge_sort_lookup_total lo hi l i :
  Forall (λ x, lo ≤ x ≤ hi) l → i < length l →
  lo ≤ merge_sort (≤) l !!! i ≤ hi.
Proof.
  intros Hl Hi. rewrite <- (merge_sort_Permutation (≤) l) in Hl, Hi.
  apply list_lookup_lookup_total_lt in Hi.
  by apply (proj1 (Forall_lookup _ _) Hl _ _ Hi).
Qed.

Lemma np_median_bounds lo hi l :
  l ≠ [] → Forall (λ x, lo ≤ x ≤ hi) l →
  ∃ q, np_median l = Fin q ∧ (Qc_of_nat lo ≤ q)%Qc ∧ (q ≤ Qc_of_nat hi)%Qc.
Proof.
  intros Hne Hl. unfold np_median.
  assert (Hn : 0 < length l) by (destruct l; [done|simpl; lia]).
  assert (Hhalf : length l / 2 < length l) by (apply Nat.div_lt; lia).
  pose proof (merge_sort_lookup_total _ _ _ _ Hl Hhalf) as Hb.
  assert (Hpred : length l / 2 - 1 < length l) by lia.
  pose proof (merge_sort_lookup_total _ _ _ _ Hl Hpred) as Ha.
  destruct (length l) as [|n] eqn:Hlen; [lia|].
  destruct (Nat.even (S n)); eexists; (split; [done|]).
  - rewrite Qc_of_nat_add. apply Qc_div_bounds; lia.
  - split; apply Qc_of_nat_le; lia.
Qed.

Lemma np_median_nonempty l : l ≠ [] → ∃ q, np_median l = Fin q.
Proof.
  intros Hne. unfold np_median.
  destruct (length l) as [|n] eqn:Hlen; [by destruct l|].
  destruct (Nat.even (S n)); by eexists.
Qed.

Lemma np_mean_Permutation l l' : l ≡ₚ l' → np_mean l = np_mean l'.
Proof.
  intros Hp. destruct l as [|x l], l' as [|x' l']; try done.
  - by apply Permutation_nil_cons in Hp.
  - symmetry in Hp. by apply Permutation_nil_cons in Hp.
  - rewrite !np_mean_nonempty by done. by rewrite Hp.
Qed.

Lemma np_median_Permutation l l' : l ≡ₚ l' → np_median l = np_median l'.
Proof.
  intros Hp. unfold np_median.
  assert (merge_sort (≤) l = merge_sort (≤) l') as ->.
  { apply (Sorted_unique (≤)); [apply Sorted_merge_sort; apply _..|].
    by rewrite !merge_sort_Permutation. }
  assert (length l = length l') as -> by by rewrite Hp.
  done.
Qed.
End statistics_facts.

(** X8: in a report, the mean and the median word length are numbers,
    not [nan], as soon as there is a word, and lie between every lower and
    every upper bound of the word lengths, so between the shortest and the
    longest word length; the mean and the median sentence length lie in
    the same way between the smallest and the largest word count of a
    sentence. *)
Theorem mean_and_median_within_bounds
    (url : string) (sentences words : list string) (pa : PageAnalytics.t)
    (lo hi : nat) :
  PageAnalytics.__init__ (PageContent.mk url (Some sentences) (Some words))
    = Ok pa →
  (words ≠ [] → Forall (λ w, lo ≤ String.length w ≤ hi) words →
   ∃ mean median,
     PageAnalytics.analytics_data pa !! "average_word_length"
       = Some (VFloat (Fin mean))
     ∧ PageAnalytics.analytics_data pa !! "median_word_length"
       = Some (VFloat (Fin median))
     ∧ (Qc_of_nat lo ≤ mean)%Qc ∧ (mean ≤ Qc_of_nat hi)%Qc
     ∧ (Qc_of_nat lo ≤ median)%Qc ∧ (median ≤ Qc_of_nat hi)%Qc)
  ∧ (Forall (λ s, lo ≤ length (Py.split s) ≤ hi) sentences →
     ∃ mean median,
       PageAnalytics.analytics_data pa !! "average_sentence_length"
         = Some (VFloat (Fin mean))
       ∧ PageAnalytics.analytics_data pa !! "median_sentence_length"
         = Some (VFloat (Fin median))
       ∧ (Qc_of_nat lo ≤ mean)%Qc ∧ (mean ≤ Qc_of_nat hi)%Qc
       ∧ (Qc_of_nat lo ≤ median)%Qc ∧ (median ≤ Qc_of_nat hi)%Qc).
Proof.
  intros Hinit.
  assert (Hss : sentences ≠ []).
  { intros ->. by vm_compute in Hinit. }
  apply init_lookups in Hinit
    as (_ & _ & _ & Havg_w & Hmed_w & _ & Havg_s & Hmed_s & _).
  split.
  - intros Hws Hall.
    assert (Hne : Py.len <$> words ≠ []) by (by destruct words).
    assert (Hb : Forall (λ x, lo ≤ x ≤ hi) (Py.len <$> words)).
    { apply Forall_fmap. eapply Forall_impl; [exact Hall|]. done. }
    destruct (np_mean_bounds _ _ _ Hne Hb) as (mean & Hmean & ? & ?).
    destruct (np_median_bounds _ _ _ Hne Hb) as (median & Hmedian & ? & ?).
    exists mean, median. rewrite Havg_w, Hmed_w, Hmean, Hmedian. done.
  - intros Hall.
    assert (Hne : PageAnalytics.sentence_length <$> sentences ≠ [])
      by (by destruct sentences).
    assert (Hb : Forall (λ x, lo ≤ x ≤ hi)
                   (PageAnalytics.sentence_length <$> sentences)).
    { apply Forall_fmap. eapply Forall_impl; [exact Hall|]. done. }
    destruct (np_mean_bounds _ _ _ Hne Hb) as (mean & Hmean & ? & ?).
    destruct (np_median_bounds _ _ _ Hne Hb) as (median & Hmedian & ? & ?).
    exists mean, median. rewrite Havg_s, Hmed_s, Hmean, Hmedian. done.
Qed.

Lemma mean_and_median_within_bounds_witness :
  ∃ pa mean median,
    PageAnalytics.__init__
      (PageContent.mk "u" (Some ["a bbbb cc"]) (Some ["a"; "bbbb"; "cc"]))
      = Ok pa
    ∧ ["a"; "bbbb"; "cc"] ≠ []
    ∧ Forall (λ w, 1 ≤ String.length w ≤ 4) ["a"; "bbbb"; "cc"]
    ∧ PageAnalytics.analytics_data pa !! "average_word_length"
      = Some (VFloat (Fin mean))
    ∧ PageAnalytics.analytics_data pa !! "median_word_length"
      = Some (VFloat (Fin median))
    ∧ (Qc_of_nat 1 ≤ mean)%Qc ∧ (mean ≤ Qc_of_nat 4)%Qc
    ∧ (Qc_of_nat 1 ≤ median)%Qc ∧ (median ≤ Qc_of_nat 4)%Qc.
Proof.
  destruct (PageAnalytics.__init__
              (PageContent.mk "u" (Some ["a bbbb cc"])
                 (Some ["a"; "bbbb"; "cc"])))
    as [pa|e] eqn:Hinit; [|by vm_compute in Hinit].
  assert (Hne : ["a"; "bbbb"; "cc"] ≠ []) by done.
  assert (Hall : Forall (λ w, 1 ≤ String.length w ≤ 4) ["a"; "bbbb"; "cc"])
    by (repeat constructor; simpl; lia).
  destruct (proj1 (mean_and_median_within_bounds _ _ _ pa 1 4 Hinit)
              Hne Hall) as (mean & median & H1 & H2 & H3 & H4 & H5 & H6).
  exists pa, mean, median.
  split_and!;
    [done|exact Hne|exact Hall|exact H1|exact H2|exact H3|exact H4
    |exact H5|exact H6].
Defined.

(** X9: the statistics of a report do not depend on the order of the
    lists: two reports built from word lists that are rearrangements of
    each other have the same mean and median word length, and two built
    from sentence lists that are rearrangements of each other have the
    same mean and median sentence length. *)
Theorem mean_and_median_ignore_order
    (url url' : string) (sentences sentences' words words' : list string)
    (pa pa' : PageAnalytics.t) :
  PageAnalytics.__init__ (PageContent.mk url (Some sentences) (Some words))
    = Ok pa →
  PageAnalytics.__init__
    (PageContent.mk url' (Some sentences') (Some words')) = Ok pa' →
  (words ≡ₚ words' →
   PageAnalytics.analytics_data pa !! "average_word_length"
   = PageAnalytics.analytics_data pa' !! "average_word_length"
   ∧ PageAnalytics.analytics_data pa !! "median_word_length"
     = PageAnalytics.analytics_data pa' !! "median_word_length")
  ∧ (sentences ≡ₚ sentences' →
     PageAnalytics.analytics_data pa !! "average_sentence_length"
     = PageAnalytics.analytics_data pa' !! "average_sentence_length"
     ∧ PageAnalytics.analytics_data pa !! "median_sentence_length"
       = PageAnalytics.analytics_data pa' !! "median_sentence_length").
Proof.
  intros (_ & _ & _ & Ha & Hm & _ & Has & Hms & _)%init_lookups
         (_ & _ & _ & Ha' & Hm' & _ & Has' & Hms' & _)%init_lookups.
  split; intros Hp.
  - rewrite Ha, Hm, Ha', Hm'.
    assert (Hl : Py.len <$> words ≡ₚ Py.len <$> words') by by rewrite Hp.
    by rewrite (np_mean_Permutation _ _ Hl), (np_median_Permutation _ _ Hl).
  - rewrite Has, Hms, Has', Hms'.
    assert (Hl : PageAnalytics.sentence_length <$> sentences
                 ≡ₚ PageAnalytics.sentence_length <$> sentences')
      by by rewrite Hp.
    by rewrite (np_mean_Permutation _ _ Hl), (np_median_Permutation _ _ Hl).
Qed.

Lemma mean_and_median_ignore_order_witness :
  ∃ pa pa',
    PageAnalytics.__init__
      (PageContent.mk "u" (Some ["a bb"]) (Some ["a"; "bb"])) = Ok pa
    ∧ PageAnalytics.__init__
        (PageContent.mk "v" (Some ["bb a"]) (Some ["bb"; "a"])) = Ok pa'
    ∧ ["a"; "bb"] ≡ₚ ["bb"; "a"]
    ∧ PageAnalytics.analytics_data pa !! "median_word_length"
      = PageAnalytics.analytics_data pa' !! "median_word_length".
Proof.
  destruct (PageAnalytics.__init__
              (PageContent.mk "u" (Some ["a bb"]) (Some ["a"; "bb"])))
    as [pa|e] eqn:Hinit; [|by vm_compute in Hinit].
  destruct (PageAnalytics.__init__
              (PageContent.mk "v" (Some ["bb a"]) (Some ["bb"; "a"])))
    as [pa'|e] eqn:Hinit'; [|by vm_compute in Hinit'].
  assert (Hp : ["a"; "bb"] ≡ₚ ["bb"; "a"]) by apply Permutation_swap.
  exists pa, pa'. split_and!; [done..|].
  exact (proj2 (proj1 (mean_and_median_ignore_order _ _ _ _ _ _ _ _
                         Hinit Hinit') Hp)).
Defined.

(** ** The pipeline of one page *)

Section analyse_facts.
Implicit Types (rp : RawPage.t) (texts : list string).

Lemma analyse_paragraphs url texts :
  analyse (RawPage.mk url (Ok texts))
  = PageAnalytics.__init__
      (PageContent.mk url (Some (segment texts))
         (Some (tokenize (segment texts)))).
Proof. done. Qed.

Lemma analyse_ok_inv rp pa :
  analyse rp = Ok pa →
  ∃ texts,
    RawPage.paragraphs rp = Ok texts
    ∧ segment texts ≠ []
    ∧ tokenize (segment texts) ≠ []
    ∧ PageAnalytics.__init__
        (PageContent.mk (RawPage.url rp) (Some (segment texts))
           (Some (tokenize (segment texts)))) = Ok pa.
Proof.
  destruct rp as [url [texts|e]]; [|done].
  rewrite analyse_paragraphs. intros Hinit. exists texts.
  assert (Hne : segment texts ≠ []).
  { intros He. by rewrite He in Hinit. }
  split_and!; [done..| |done].
  intros He.
  pose proof (tokenize_at_least _ (segment_sentences texts)) as Hlen.
  rewrite He in Hlen. destruct (segment texts); [done|]. simpl in Hlen. lia.
Qed.
End analyse_facts.

(** X10: what the pipeline does with one page. A page that cannot be
    acquired passes its [UrlError] on unchanged; a page all of whose
    paragraphs consist of whitespace and terminators only ends in
    [ValueError]; every other page gives a report, whose page content
    holds the page's address, its sentences and their words. *)
Theorem analyse_outcomes (rp : RawPage.t) (texts : list string) (e : exn) :
  (RawPage.paragraphs rp = Raise e → analyse rp = Raise e)
  ∧ (RawPage.paragraphs rp = Ok texts →
     Forall (λ text, Py.all blank text = true) texts →
     analyse rp = Raise ValueError)
  ∧ (RawPage.paragraphs rp = Ok texts →
     ¬ Forall (λ text, Py.all blank text = true) texts →
     ∃ pa, analyse rp = Ok pa
           ∧ PageAnalytics.page_content pa
             = PageContent.mk (RawPage.url rp) (Some (segment texts))
                 (Some (tokenize (segment texts)))).
Proof.
  destruct rp as [url p]. simpl. split_and!.
  - by intros ->.
  - intros -> Hblank%segment_nil. rewrite analyse_paragraphs.
    by rewrite Hblank.
  - intros -> Hsome. rewrite analyse_paragraphs.
    assert (Hne : segment texts ≠ []) by by rewrite segment_nil.
    destruct (init_ok url _ (tokenize (segment texts)) Hne) as [pa Hpa].
    exists pa. split; [done|].
    by apply init_lookups in Hpa as (-> & _).
Qed.

Lemma analyse_outcomes_witness :
  analyse (RawPage.mk "u" (Raise (UrlError "u" "Failed to fetch data: x")))
    = Raise (UrlError "u" "Failed to fetch data: x")
  ∧ analyse (RawPage.mk "u" (Ok [" ?! "; ""])) = Raise ValueError
  ∧ (∃ pa, analyse (RawPage.mk "u" (Ok [" ?! "; "Hi there."])) = Ok pa
           ∧ PageAnalytics.page_content pa
             = PageContent.mk "u" (Some ["Hi there"]) (Some ["Hi"; "there"])).
Proof.
  pose proof (analyse_outcomes
                (RawPage.mk "u" (Raise (UrlError "u" "Failed to fetch data: x")))
                [] (UrlError "u" "Failed to fetch data: x"))
    as (Hraise & _ & _).
  pose proof (analyse_outcomes (RawPage.mk "u" (Ok [" ?! "; ""]))
                [" ?! "; ""] ValueError) as (_ & Hblank & _).
  pose proof (analyse_outcomes (RawPage.mk "u" (Ok [" ?! "; "Hi there."]))
                [" ?! "; "Hi there."] ValueError) as (_ & _ & Hok).
  split_and!.
  - by apply Hraise.
  - apply Hblank; [done|]. by repeat constructor.
  - apply Hok; [done|]. intros Hall.
    apply Forall_cons in Hall as [_ Hall].
    by apply Forall_cons in Hall as [Hall _].
Defined.

Section pipeline_bound_facts.
Implicit Types (texts ss : list string).

Lemma token_lengths_bounded ws :
  Forall is_token ws →
  Forall (λ x, 1 ≤ x ≤ sum_list (Py.len <$> ws)) (Py.len <$> ws).
Proof.
  intros Hws. apply Forall_forall. intros x Hx. split.
  - apply list_elem_of_fmap in Hx as (w & -> & Hw).
    destruct (proj1 (Forall_forall _ _) Hws w Hw) as [Hne _].
    destruct w; [done|]. simpl. lia.
  - by apply (sum_list_with_in x id).
Qed.

Lemma sentence_lengths_bounded ss :
  Forall is_sentence ss →
  Forall (λ x, 1 ≤ x ≤ length (tokenize ss))
    (PageAnalytics.sentence_length <$> ss).
Proof.
  intros Hss. apply Forall_forall. intros x Hx. split.
  - apply list_elem_of_fmap in Hx as (s & -> & Hs).
    destruct (proj1 (Forall_forall _ _) Hss s Hs) as [_ Hsp].
    apply split_not_nil in Hsp. unfold PageAnalytics.sentence_length.
    destruct (Py.split s); [done|]. simpl. lia.
  - rewrite tokenize_length. by apply (sum_list_with_in x id).
Qed.
End pipeline_bound_facts.

(** X11: in every report that the pipeline builds from a page, both lists
    are non-empty and none of the four statistics is [nan]. The mean and
    the median word length are at least 1, because no extracted word is
    empty; the mean and the median sentence length are at least 1,
    because every extracted sentence has a word, and at most the number
    of words of the page. *)
Theorem pipeline_statistics (rp : RawPage.t) (pa : PageAnalytics.t) :
  analyse rp = Ok pa →
  ∃ sentences words mean_word median_word mean_sentence median_sentence,
    PageAnalytics.page_content pa
    = PageContent.mk (RawPage.url rp) (Some sentences) (Some words)
    ∧ sentences ≠ [] ∧ words ≠ []
    ∧ PageAnalytics.analytics_data pa !! "average_word_length"
      = Some (VFloat (Fin mean_word))
    ∧ PageAnalytics.analytics_data pa !! "median_word_length"
      = Some (VFloat (Fin median_word))
    ∧ PageAnalytics.analytics_data pa !! "average_sentence_length"
      = Some (VFloat (Fin mean_sentence))
    ∧ PageAnalytics.analytics_data pa !! "median_sentence_length"
      = Some (VFloat (Fin median_sentence))
    ∧ (Qc_of_nat 1 ≤ mean_word)%Qc
    ∧ (Qc_of_nat 1 ≤ median_word)%Qc
    ∧ (Qc_of_nat 1 ≤ mean_sentence)%Qc
    ∧ (mean_sentence ≤ Qc_of_nat (length words))%Qc
    ∧ (Qc_of_nat 1 ≤ median_sentence)%Qc
    ∧ (median_sentence ≤ Qc_of_nat (length words))%Qc.
Proof.
  intros (texts & _ & Hss & Hws & Hinit)%analyse_ok_inv.
  apply init_lookups in Hinit
    as (Hpc & _ & _ & Havg_w & Hmed_w & _ & Havg_s & Hmed_s & _).
  assert (Hlen_w : Py.len <$> tokenize (segment texts) ≠ [])
    by (by destruct (tokenize (segment texts))).
  assert (Hlen_s : PageAnalytics.sentence_length <$> segment texts ≠ [])
    by (by destruct (segment texts)).
  pose proof (token_lengths_bounded _ (tokenize_tokens (segment texts)))
    as Hb_w.
  pose proof (sentence_lengths_bounded _ (segment_sentences texts)) as Hb_s.
  destruct (np_mean_bounds _ _ _ Hlen_w Hb_w) as (aw & Haw & ? & _).
  destruct (np_median_bounds _ _ _ Hlen_w Hb_w) as (mw & Hmw & ? & _).
  destruct (np_mean_bounds _ _ _ Hlen_s Hb_s) as (as_ & Has & ? & ?).
  destruct (np_median_bounds _ _ _ Hlen_s Hb_s) as (ms & Hms & ? & ?).
  exists (segment texts), (tokenize (segment texts)), aw, mw, as_, ms.
  rewrite Havg_w, Hmed_w, Havg_s, Hmed_s, Haw, Hmw, Has, Hms.
  by split_and!.
Qed.

Lemma pipeline_statistics_witness :
  ∃ pa mean_sentence,
    analyse sample_page = Ok pa
    ∧ PageAnalytics.analytics_data pa !! "average_sentence_length"
      = Some (VFloat (Fin mean_sentence))
    ∧ (Qc_of_nat 1 ≤ mean_sentence)%Qc
    ∧ (mean_sentence ≤ Qc_of_nat 8)%Qc.
Proof.
  destruct (analyse sample_page) as [pa|e] eqn:Hpa;
    [|by vm_compute in Hpa].
  destruct (pipeline_statistics _ _ Hpa)
    as (ss & ws & aw & mw & as_ & ms & Hpc & _ & _ & _ & _ & Havg & _
        & _ & _ & Hlo & Hhi & _).
  exists pa, as_. split_and!; [done|exact Havg|exact Hlo|].
  vm_compute in Hpa. injection Hpa as <-. injection Hpc as <- <-.
  exact Hhi.
Defined.

(** ** The frequency tables, once more *)

Section count_facts.
Import PageAnalytics.
Implicit Types (w : string) (words : list string) (d : list (string * nat)).

Lemma occurrences_pos w words : w ∈ words → 0 < occurrences w words.
Proof.
  intros Hw. unfold occurrences.
  assert (w ∈ filter (λ x, x = w) words) as Hin
    by by apply list_elem_of_filter.
  destruct (filter (λ x, x = w) words); [by apply elem_of_nil in Hin|].
  simpl. lia.
Qed.

Lemma word_freq_top20_sub words : word_freq_top20 words ⊆ Counter words.
Proof.
  rewrite word_freq_top20_eq. intros e He%subseteq_take.
  by rewrite sorted_desc_perm in He.
Qed.

Lemma top_10_word_freq_sub words : top_10_word_freq words ⊆ Counter words.
Proof.
  rewrite top_10_word_freq_eq. intros e He%subseteq_take.
  by apply word_freq_top20_sub.
Qed.

Lemma top_10_filtered_word_freq_sub words :
  top_10_filtered_word_freq words ⊆ Counter words.
Proof.
  rewrite top_10_filtered_word_freq_eq, filtered_word_freq_eq.
  intros e He%subseteq_take. apply list_elem_of_filter in He as [_ He].
  by apply word_freq_top20_sub.
Qed.

Lemma set_incr_sum w d :
  sum_list (Dict.set w (default 0 (Dict.get w d) + 1) d).*2
  = sum_list d.*2 + 1.
Proof.
  induction d as [|[k v] d IH]; csimpl; [done|].
  case_decide; csimpl; [lia|]. rewrite IH. lia.
Qed.

Lemma Counter_fold_sum d words :
  sum_list
    (foldl (λ d w, Dict.set w (default 0 (Dict.get w d) + 1) d) d words).*2
  = sum_list d.*2 + length words.
Proof.
  induction words as [|w words IH] in d |- *; simpl; [lia|].
  rewrite IH, set_incr_sum. lia.
Qed.

Lemma Counter_sum words : sum_list (Counter words).*2 = length words.
Proof. apply (Counter_fold_sum []). Qed.

Lemma sum_list_take n (l : list nat) : sum_list (take n l) ≤ sum_list l.
Proof.
  induction l as [|x l IH] in n |- *; [by destruct n|].
  destruct n as [|n]; simpl; [lia|]. specialize (IH n). lia.
Qed.

Lemma Counter_length words :
  length (Counter words) = length (first_seen words).
Proof. by rewrite <- Counter_keys, length_fmap. Qed.
End count_facts.

(** X12: every count the report shows is exact: an entry of top_10_words
    or of top_10_words_filtered pairs a word of the word list with the
    number of its occurrences in that list, which is at least 1. No word
    appears twice in either table, and top_10_words has 10 entries, or one
    per distinct word when there are fewer than 10 distinct words. *)
Theorem reported_counts_are_exact (words : list string) (w : string) (n : nat) :
  ((w, n) ∈ PageAnalytics.top_10_word_freq words
   ∨ (w, n) ∈ PageAnalytics.top_10_filtered_word_freq words →
   w ∈ words ∧ n = occurrences w words ∧ 1 ≤ n)
  ∧ NoDup (PageAnalytics.top_10_word_freq words).*1
  ∧ NoDup (PageAnalytics.top_10_filtered_word_freq words).*1
  ∧ length (PageAnalytics.top_10_word_freq words)
    = 10 `min` length (first_seen words).
Proof.
  split_and!.
  - intros Hin.
    assert (He : (w, n) ∈ Counter words).
    { destruct Hin as [Hin|Hin];
        [by apply top_10_word_freq_sub|by apply top_10_filtered_word_freq_sub]. }
    apply Counter_elem in He as [Hw ->]. split_and!; [done..|].
    by apply occurrences_pos.
  - rewrite top_10_word_freq_eq.
    apply NoDup_keys_take, word_freq_top20_NoDup.
  - rewrite top_10_filtered_word_freq_eq, filtered_word_freq_eq.
    apply NoDup_keys_take, NoDup_keys_filter, word_freq_top20_NoDup.
  - rewrite top_10_word_freq_eq, word_freq_top20_eq, !length_take.
    rewrite sorted_desc_perm, Counter_length. lia.
Qed.

Lemma reported_counts_are_exact_witness :
  ("b", 2) ∈ PageAnalytics.top_10_word_freq ["b"; "a"; "b"]
  ∧ "b" ∈ ["b"; "a"; "b"]
  ∧ 2 = occurrences "b" ["b"; "a"; "b"].
Proof.
  assert (Hin : ("b", 2) ∈ PageAnalytics.top_10_word_freq ["b"; "a"; "b"])
    by (vm_compute; constructor).
  pose proof (reported_counts_are_exact ["b"; "a"; "b"] "b" 2)
    as (Hexact & _).
  destruct (Hexact (or_introl Hin)) as (Hw & Hn & _).
  split_and!; [exact Hin|exact Hw|exact Hn].
Defined.

(** X13: counting loses no word: the counts of the frequency table add up
    to the number of words. The counts of the 20 most frequent words add
    up to at most that, and to exactly that when the list has no more
    than 20 distinct words; the counts of top_10_words add up to at most
    that. *)
Theorem counts_add_up (words : list string) :
  sum_list (Counter words).*2 = length words
  ∧ sum_list (PageAnalytics.word_freq_top20 words).*2 ≤ length words
  ∧ (length (first_seen words) ≤ 20 →
     sum_list (PageAnalytics.word_freq_top20 words).*2 = length words)
  ∧ sum_list (PageAnalytics.top_10_word_freq words).*2 ≤ length words.
Proof.
  assert (Hsorted :
    sum_list (sorted_desc snd (Counter words)).*2 = length words).
  { by rewrite sorted_desc_perm, Counter_sum. }
  assert (Htop20 :
    sum_list (PageAnalytics.word_freq_top20 words).*2 ≤ length words).
  { rewrite word_freq_top20_eq, fmap_take, <- Hsorted.
    apply sum_list_take. }
  split_and!; [apply Counter_sum|done| |].
  - intros Hfew. rewrite word_freq_top20_eq, take_ge; [done|].
    by rewrite sorted_desc_perm, Counter_length.
  - rewrite top_10_word_freq_eq, fmap_take.
    etrans; [apply sum_list_take|done].
Qed.

Lemma counts_add_up_witness :
  length (first_seen ["b"; "a"; "b"]) ≤ 20
  ∧ sum_list (PageAnalytics.word_freq_top20 ["b"; "a"; "b"]).*2 = 3.
Proof.
  assert (Hfew : length (first_seen ["b"; "a"; "b"]) ≤ 20)
    by (vm_compute; lia).
  pose proof (counts_add_up ["b"; "a"; "b"]) as (_ & _ & Hall & _).
  split; [exact Hfew|]. exact (Hall Hfew).
Defined.

(** X14: the mapping of the longest words holds the longest words: a word
    of the list that is not a key of the mapping is at most as long as
    every key, and when the list has at most 10 words every word of it is
    a key. *)
Theorem longest_words_dominate (words : list string) (w w' : string) :
  (w ∈ (PageAnalytics.longest_words_dict words).*1 →
   w' ∈ words →
   w' ∉ (PageAnalytics.longest_words_dict words).*1 →
   String.length w' ≤ String.length w)
  ∧ (length words ≤ 10 → w' ∈ words →
     w' ∈ (PageAnalytics.longest_words_dict words).*1).
Proof.
  pose proof (sorted_desc_perm Py.len words) as Hperm.
  pose proof (sorted_desc_sorted Py.len words) as Hsorted.
  assert (Hkeys : (PageAnalytics.longest_words_dict words).*1
                  = first_seen (take 10 (sorted_desc Py.len words))).
  { unfold PageAnalytics.longest_words_dict, PageAnalytics.longest_words.
    rewrite of_list_keyed, <- list_fmap_compose. apply list_fmap_id. }
  rewrite Hkeys. split.
  - intros Hw Hw' Hout.
    rewrite elem_of_first_seen in Hw. rewrite elem_of_first_seen in Hout.
    rewrite <- Hperm, <- (take_drop 10 (sorted_desc Py.len words)) in Hw'.
    apply elem_of_app in Hw' as [Hw'|Hw']; [done|].
    rewrite <- (take_drop 10 (sorted_desc Py.len words)) in Hsorted.
    exact (StronglySorted_app_1_elem_of _ _ _ _ _ Hsorted Hw Hw').
  - intros Hlen Hw'. apply elem_of_first_seen.
    rewrite take_ge by (by rewrite Hperm). by rewrite Hperm.
Qed.

Lemma longest_words_dominate_witness :
  "bbb" ∈ (PageAnalytics.longest_words_dict ["a"; "bbb"]).*1
  ∧ length ["a"; "bbb"] ≤ 10
  ∧ "a" ∈ ["a"; "bbb"]
  ∧ "a" ∈ (PageAnalytics.longest_words_dict ["a"; "bbb"]).*1.
Proof.
  pose proof (longest_words_dominate ["a"; "bbb"] "bbb" "a") as [_ Hall].
  pose proof (longest_words_dominate ["a"; "bbb"] "bbb" "bbb") as [_ Hall'].
  assert (Hlen : length ["a"; "bbb"] ≤ 10) by (simpl; lia).
  assert (Ha : "a" ∈ ["a"; "bbb"]) by constructor.
  assert (Hb : "bbb" ∈ ["a"; "bbb"]) by (do 2 constructor).
  split_and!; [exact (Hall' Hlen Hb)|exact Hlen|exact Ha|exact (Hall Hlen Ha)].
Defined.

(** ** The persisted record *)

(** X15: a report fresh from the constructor has exactly eight fields,
    and the record that [save_to_json] hands to the serialiser has exactly
    these eight and the field url, which holds the page address. *)
Theorem saved_record_fields
    (pc : PageContent.t) (pa : PageAnalytics.t) (filename : string) :
  PageAnalytics.__init__ pc = Ok pa →
  dom (PageAnalytics.analytics_data pa)
  = ({[ "top_10_words"; "top_10_words_filtered"; "average_word_length";
        "median_word_length"; "top_10_longest_words";
        "average_sentence_length"; "median_sentence_length";
        "longest_sentence" ]} : gset string)
  ∧ dom (PageAnalytics.save_to_json pa filename).2.2
    = ({[ "url"; "top_10_words"; "top_10_words_filtered";
          "average_word_length"; "median_word_length";
          "top_10_longest_words"; "average_sentence_length";
          "median_sentence_length"; "longest_sentence" ]} : gset string)
  ∧ (PageAnalytics.save_to_json pa filename).2.2 !! "url"
    = Some (VStr (PageContent.url pc)).
Proof.
  intros Hinit.
  destruct (init_ok_inv _ _ Hinit) as (ss & ws & longest & Hpc & Hmax).
  rewrite Hpc in Hinit. unfold PageAnalytics.__init__ in Hinit.
  rewrite (make_analytics_ok _ _ _ _ _ Hmax) in Hinit.
  injection Hinit as <-. simpl. rewrite !dom_insert_L, dom_empty_L.
  split_and!; [set_solver|set_solver|].
  rewrite lookup_insert_eq. by rewrite Hpc.
Qed.

Lemma saved_record_fields_witness :
  ∃ pa,
    PageAnalytics.__init__ (PageContent.mk "u" (Some ["A"]) (Some ["A"]))
      = Ok pa
    ∧ (PageAnalytics.save_to_json pa "out.json").2.2 !! "url"
      = Some (VStr "u").
Proof.
  destruct (PageAnalytics.__init__
              (PageContent.mk "u" (Some ["A"]) (Some ["A"])))
    as [pa|e] eqn:Hinit; [|by vm_compute in Hinit].
  exists pa. split; [done|].
  by destruct (saved_record_fields _ pa "out.json" Hinit) as (_ & _ & ->).
Defined.

(** ** Acquisition *)

(** X16: the page is fetched at most once. A page starts with both lazy
    attributes unset; a read of [data] that succeeds returns a document,
    leaves both attributes set and the address unchanged, and from then
    on [data] and [headline] return the stored values and leave the
    object alone whatever the network would answer. A first read of a page
    whose address can be fetched stores the parsed document and, as
    headline, the text of the heading element or, without that element,
    the text Headline not found. *)
Theorem page_is_fetched_once {Soup : Type}
    (requests_get requests_get' : string → string + Soup)
    (find_headline find_headline' : Soup → option string)
    (self self' : RawPageState.t Soup) (d : option Soup)
    (address : string) (soup : Soup) :
  loaded_together (RawPageState.__init__ (Soup:=Soup) address)
  ∧ (loaded_together self →
     RawPageState.data requests_get find_headline self = Ok (d, self') →
     loaded_together self'
     ∧ is_Some d
     ∧ RawPageState._data self' = d
     ∧ is_Some (RawPageState._headline self')
     ∧ RawPageState.url self' = RawPageState.url self
     ∧ RawPageState.data requests_get' find_headline' self' = Ok (d, self')
     ∧ RawPageState.headline requests_get' find_headline' self'
       = Ok (RawPageState._headline self', self'))
  ∧ (requests_get address = inr soup →
     RawPageState.data requests_get find_headline
       (RawPageState.__init__ address)
     = Ok (Some soup,
           RawPageState.mk address (Some soup)
             (Some (default "Headline not found" (find_headline soup))))).
Proof.
  split_and!.
  - by left.
  - intros Hinv Hdata. unfold RawPageState.data in Hdata.
    assert (Hgoal : ∀ s : RawPageState.t Soup,
      is_Some (RawPageState._data s) → is_Some (RawPageState._headline s) →
      RawPageState.data requests_get' find_headline' s
        = Ok (RawPageState._data s, s)
      ∧ RawPageState.headline requests_get' find_headline' s
        = Ok (RawPageState._headline s, s)).
    { intros [u [x|] [y|]] [? Hx] [? Hy]; by simplify_eq/=. }
    destruct Hinv as [[Hd Hh]|[Hd Hh]].
    + rewrite Hd in Hdata. unfold RawPageState._fetch_data in Hdata.
      destruct (requests_get (RawPageState.url self)) as [e|s]; [done|].
      simpl in Hdata. injection Hdata as <- <-. simpl.
      split_and!; try done; try (by eexists);
        try (by apply Hgoal; eexists).
      right. by split; eexists.
    + destruct Hd as [x Hx]. rewrite Hx in Hdata. simpl in Hdata.
      injection Hdata as <- <-.
      split_and!; try done; try (by eexists);
        try (by apply Hgoal; [eexists|]).
      right. split; [by eexists|done].
  - intros Hget. unfold RawPageState.data, RawPageState._fetch_data.
    simpl. by rewrite Hget.
Qed.

Lemma page_is_fetched_once_witness :
  RawPageState.data (Soup:=list string)
    (λ _, inl "offline") (λ _, None)
    (RawPageState.mk "u" (Some ["A."]) (Some "Headline not found"))
  = Ok (Some ["A."],
        RawPageState.mk "u" (Some ["A."]) (Some "Headline not found")).
Proof.
  pose proof (page_is_fetched_once (Soup:=list string)
                (λ _, inr ["A."]) (λ _, inl "offline")
                (λ _, None) (λ _, None)
                (RawPageState.__init__ "u")
                (RawPageState.mk "u" (Some ["A."])
                   (Some "Headline not found"))
                (Some ["A."]) "u" ["A."]) as (Hinit & Hread & _).
  by destruct (Hread Hinit eq_refl) as (_ & _ & _ & _ & _ & -> & _).
Defined.

(** X17: a page that cannot be fetched. While nothing is stored, a failing
    request makes the reads of [data] and of [headline], and with them the
    whole pipeline of the page, raise [UrlError] with the page address and
    the message Failed to fetch data: followed by the text of the request
    error; that error prints as UrlError: Failed to fetch data: ..., then
    a dash and the address. *)
Theorem failed_fetch_raises_UrlError {Soup : Type}
    (requests_get : string → string + Soup)
    (find_headline : Soup → option string)
    (paragraph_texts : Soup → list string)
    (self : RawPageState.t Soup) (e : string) :
  RawPageState._data self = None →
  RawPageState._headline self = None →
  requests_get (RawPageState.url self) = inl e →
  let error :=
    UrlError (RawPageState.url self) ("Failed to fetch data: " +:+ e) in
  RawPageState.data requests_get find_headline self = Raise error
  ∧ RawPageState.headline requests_get find_headline self = Raise error
  ∧ analyse (RawPageState.observe requests_get find_headline
               paragraph_texts self) = Raise error
  ∧ UrlError_str (RawPageState.url self) ("Failed to fetch data: " +:+ e)
    = "UrlError: Failed to fetch data: " +:+ e +:+ " - "
        +:+ RawPageState.url self.
Proof.
  intros Hd Hh Hget error.
  assert (Hdata : RawPageState.data requests_get find_headline self
                  = Raise error).
  { unfold RawPageState.data, RawPageState._fetch_data.
    by rewrite Hd, Hget. }
  split_and!.
  - done.
  - unfold RawPageState.headline, RawPageState._fetch_data.
    by rewrite Hh, Hget.
  - unfold analyse, Extractor.extract_sentences, Extractor._fetch_data.
    simpl. unfold RawPageState.paragraphs. by rewrite Hdata.
  - reflexivity.
Qed.

Lemma failed_fetch_raises_UrlError_witness :
  RawPageState.data (Soup:=list string)
    (λ _, inl "timeout") (λ _, None) (RawPageState.__init__ "u")
  = Raise (UrlError "u" "Failed to fetch data: timeout").
Proof.
  by destruct (failed_fetch_raises_UrlError (Soup:=list string)
                 (λ _, inl "timeout") (λ _, None) id
                 (RawPageState.__init__ "u") "timeout"
                 eq_refl eq_refl eq_refl) as (-> & _).
Defined.

(** ** The comparison table *)

Section max_more_facts.
Context {A : Type}.
Implicit Types (key : A → nat) (l : list A).

Lemma max_from_cons key x y l :
  max_from key x (y :: l)
  = (if key x <? key (max_from key y l) then max_from key y l else x).
Proof.
  induction l as [|z l IH] in x, y |- *; [done|].
  change (max_from key x (y :: z :: l))
    with (max_from key (if key x <? key y then y else x) (z :: l)).
  change (max_from key y (z :: l))
    with (max_from key (if key y <? key z then z else y) l).
  rewrite (IH (if key x <? key y then y else x) z).
  specialize (IH y z). simpl in IH. rewrite IH.
  destruct (key x <? key y) eqn:Hxy,
    (key y <? key (max_from key z l)) eqn:Hym,
    (key x <? key (max_from key z l)) eqn:Hxm;
    rewrite ?Hxy, ?Hym, ?Hxm; try done;
    repeat match goal with
    | H : (_ <? _) = true |- _ => apply Nat.ltb_lt in H
    | H : (_ <? _) = false |- _ => apply Nat.ltb_ge in H
    end; lia.
Qed.

(** The stable descending sort starts with the element [max] returns. *)
Lemma sorted_desc_head key x l :
  head (sorted_desc key (x :: l)) = Some (max_from key x l).
Proof.
  induction l as [|y l IH] in x |- *; [done|].
  rewrite max_from_cons.
  change (sorted_desc key (x :: y :: l))
    with (insert_desc key x (sorted_desc key (y :: l))).
  specialize (IH y). destruct (sorted_desc key (y :: l)) as [|m rest];
    [done|].
  injection IH as <-. simpl. by destruct (key x <? key m).
Qed.

Lemma max_from_ext key key' best l :
  key best = key' best → Forall (λ x, key x = key' x) l →
  max_from key best l = max_from key' best l.
Proof.
  intros Hbest Hl. revert best Hbest.
  induction Hl as [|x l Hx _ IH]; intros best Hbest; [done|].
  simpl. rewrite <- Hbest, <- Hx. apply IH.
  by destruct (key best <? key x).
Qed.

Lemma max_from_top key best l :
  Forall (λ x, key x ≤ key best) l → max_from key best l = best.
Proof.
  induction 1 as [|x l Hx _ IH]; [done|]. simpl.
  by rewrite (proj2 (Nat.ltb_ge _ _) Hx).
Qed.
End max_more_facts.

Section row_facts.
Implicit Types (words : list string).

(** [max(d, key=d.get)] on the mapping of the longest words is the first
    word of maximal length of the whole list. *)
Lemma max_key_longest_words words :
  Main.max_key (PageAnalytics.longest_words_dict words)
  = py_max Py.len words.
Proof.
  destruct words as [|x l]; [done|].
  unfold Main.max_key, PageAnalytics.longest_words_dict,
    PageAnalytics.longest_words.
  rewrite of_list_keyed.
  pose proof (sorted_desc_head Py.len x l) as Hhead.
  pose proof (sorted_desc_sorted Py.len (x :: l)) as Hsorted.
  destruct (sorted_desc Py.len (x :: l)) as [|h rest]; [done|].
  injection Hhead as Hh. apply StronglySorted_inv in Hsorted as [_ Hrest].
  set (d := (λ k, (k, Py.len k)) <$> first_seen (take 10 (h :: rest))).
  assert (Hkeys : d.*1 = first_seen (take 10 (h :: rest))).
  { unfold d. rewrite <- list_fmap_compose. apply list_fmap_id. }
  assert (Hget : ∀ k, k ∈ d.*1 → default 0 (Dict.get k d) = Py.len k).
  { intros k Hk.
    assert (Hin : (k, Py.len k) ∈ d).
    { unfold d. apply list_elem_of_fmap. exists k. split; [done|].
      by rewrite <- Hkeys. }
    apply get_elem in Hin; [by rewrite Hin|].
    rewrite Hkeys. apply NoDup_first_seen. }
  rewrite Hkeys in Hget |- *. simpl in Hget |- *. f_equal.
  rewrite (max_from_ext _ Py.len).
  - rewrite Hh. apply max_from_top, Forall_forall. intros k Hk.
    apply list_elem_of_filter in Hk as [_ Hk].
    apply elem_of_first_seen, subseteq_take in Hk.
    rewrite <- Hh. by apply (proj1 (Forall_forall _ _) Hrest).
  - apply Hget. left.
  - apply Forall_forall. intros k Hk. apply Hget. by right.
Qed.

Lemma analytics_dict_of_report rp pa ss ws longest :
  analyse rp = Ok pa →
  PageAnalytics.page_content pa
    = PageContent.mk (RawPage.url rp) (Some ss) (Some ws) →
  PageAnalytics.analytics_data pa !! "longest_sentence"
    = Some (VStr longest) →
  PageAnalytics.analytics_data pa !! "top_10_longest_words"
    = Some (VDict (PageAnalytics.longest_words_dict ws)) →
  Main.analytics_dict rp
  = longest_word ← py_max Py.len ws;
    Ok (Main.mk (RawPage.url rp) (VStr longest) longest_word
          (length ss) (length ws)).
Proof.
  intros Hpa Hpc Hsent Hwords. unfold Main.analytics_dict.
  rewrite Hpa. simpl. unfold PageAnalytics.getitem.
  rewrite Hsent, Hwords. simpl. rewrite max_key_longest_words.
  destruct (py_max Py.len ws); [|done]. simpl. by rewrite Hpc.
Qed.
End row_facts.

(** X18: the row of the comparison table. A page gets a row exactly when
    the pipeline gives it a report, and otherwise the row fails with the
    error of the pipeline. The row holds the page address, the numbers of
    sentences and of words of the page, as longest sentence the first
    sentence of maximal word count, and as longest word the first word of
    maximal length in the whole word list. *)
Theorem table_row (rp : RawPage.t) :
  (∀ e, analyse rp = Raise e → Main.analytics_dict rp = Raise e)
  ∧ (∀ pa, analyse rp = Ok pa →
       ∃ texts longest_sentence longest_word,
         RawPage.paragraphs rp = Ok texts
         ∧ py_max PageAnalytics.sentence_length (segment texts)
           = Ok longest_sentence
         ∧ py_max String.length (tokenize (segment texts)) = Ok longest_word
         ∧ Main.analytics_dict rp
           = Ok (Main.mk (RawPage.url rp) (VStr longest_sentence)
                   longest_word (length (segment texts))
                   (length (tokenize (segment texts))))).
Proof.
  split.
  - intros e He. unfold Main.analytics_dict. by rewrite He.
  - intros pa Hpa.
    destruct (analyse_ok_inv _ _ Hpa) as (texts & Htexts & Hss & Hws & Hinit).
    apply init_lookups in Hinit
      as (Hpc & _ & _ & _ & _ & Hlw & _ & _ & (ls & Hmax & Hls) & _).
    destruct (py_max_nonempty Py.len _ Hws) as [lw Hlw_max].
    exists texts, ls, lw. split_and!; [done..|].
    rewrite (analytics_dict_of_report _ _ _ _ _ Hpa Hpc Hls Hlw).
    by rewrite Hlw_max.
Qed.

Lemma table_row_witness :
  Main.analytics_dict sample_page
  = Ok (Main.mk "u" (VStr "The cat sat") "Dogs" 3 8).
Proof.
  destruct (analyse sample_page) as [pa|e] eqn:Hpa;
    [|by vm_compute in Hpa].
  destruct (proj2 (table_row sample_page) pa Hpa)
    as (texts & ls & lw & [= <-] & Hls & Hlw & ->).
  vm_compute in Hls, Hlw. by simplify_eq.
Defined.

Section loop_facts.
Implicit Types (pages : list RawPage.t) (rows acc : list Main.row).

Lemma loop_ok pages acc rows :
  Main.loop pages acc = Ok rows
  ↔ ∃ new, rows = acc ++ new
           ∧ Forall2 (λ p r, Main.analytics_dict p = Ok r) pages new.
Proof.
  induction pages as [|p pages IH] in acc |- *; simpl.
  - split.
    + intros [= <-]. exists []. by rewrite app_nil_r.
    + intros (new & -> & ->%Forall2_nil_inv_l). by rewrite app_nil_r.
  - destruct (Main.analytics_dict p) as [r|e] eqn:Hp; simpl.
    + rewrite IH. split.
      * intros (new & -> & Hnew). exists (r :: new).
        split; [by rewrite <- app_assoc|]. by constructor.
      * intros (new & -> & Hnew).
        apply Forall2_cons_inv_l in Hnew as (r' & new' & Hr' & Hnew & ->).
        rewrite Hp in Hr'. injection Hr' as <-.
        exists new'. split; [by rewrite <- app_assoc|done].
    + split; [done|]. intros (new & _ & Hnew).
      apply Forall2_cons_inv_l in Hnew as (? & ? & Hr' & _).
      by rewrite Hp in Hr'.
Qed.

Lemma loop_raise done p rest acc e :
  Forall (λ q, ∃ r, Main.analytics_dict q = Ok r) done →
  Main.analytics_dict p = Raise e →
  Main.loop (done ++ p :: rest) acc = Raise e.
Proof.
  intros Hdone Hp. revert acc.
  induction Hdone as [|q done [r Hq] _ IH]; intros acc; simpl.
  - by rewrite Hp.
  - rewrite Hq. simpl. apply IH.
Qed.
Lemma analytics_dict_URL (p : RawPage.t) (r : Main.row) :
  Main.analytics_dict p = Ok r → Main.URL r = RawPage.url p.
Proof.
  unfold Main.analytics_dict. intros H.
  destruct (analyse p) as [pa|]; simpl in H; [|done].
  destruct (PageAnalytics.getitem pa "longest_sentence");
    simpl in H; [|done].
  destruct (PageAnalytics.getitem pa "top_10_longest_words");
    simpl in H; [|done].
  destruct (Main.as_dict _); simpl in H; [|done].
  destruct (Main.max_key _); simpl in H; [|done].
  destruct (Main.len_of (PageContent.get_sentences _)); simpl in H; [|done].
  destruct (Main.len_of (PageContent.get_words _)); simpl in H; [|done].
  by injection H as <-.
Qed.
End loop_facts.

(** X19: the loop over the pages. It returns a table exactly when every
    page gets its row, and then the table has one row per page, in the
    order of the pages, each carrying the address of its page. As soon as
    one page fails, after pages that all succeeded, the whole run fails
    with the error of that page and no table is produced, whatever pages
    follow. *)
Theorem table_is_all_or_nothing
    (pages done rest : list RawPage.t) (page : RawPage.t)
    (rows : list Main.row) (e : exn) :
  (Main.main pages = Ok rows
   ↔ Forall2 (λ p r, Main.analytics_dict p = Ok r) pages rows)
  ∧ (Main.main pages = Ok rows →
     length rows = length pages
     ∧ Main.URL <$> rows = RawPage.url <$> pages)
  ∧ (Forall (λ q, ∃ r, Main.analytics_dict q = Ok r) done →
     Main.analytics_dict page = Raise e →
     Main.main (done ++ page :: rest) = Raise e).
Proof.
  assert (Hiff : Main.main pages = Ok rows
    ↔ Forall2 (λ p r, Main.analytics_dict p = Ok r) pages rows).
  { unfold Main.main. rewrite loop_ok. split.
    - by intros (new & -> & Hnew).
    - intros H. by exists rows. }
  split_and!; [done| |apply loop_raise].
  intros Hrows%Hiff. split.
  - symmetry. by eapply Forall2_length.
  - clear Hiff. induction Hrows as [|p r pages' rows' Hp _ IH]; [done|].
    csimpl. f_equal; [|done]. by apply analytics_dict_URL.
Qed.

Lemma table_is_all_or_nothing_witness :
  Main.main [sample_page; RawPage.mk "v" (Ok ["Hi."])]
  = Ok [Main.mk "u" (VStr "The cat sat") "Dogs" 3 8;
        Main.mk "v" (VStr "Hi") "Hi" 1 1]
  ∧ Main.main
      [sample_page; RawPage.mk "w" (Raise (UrlError "w" "x")); sample_page]
    = Raise (UrlError "w" "x").
Proof.
  pose proof (table_is_all_or_nothing
                [sample_page; RawPage.mk "v" (Ok ["Hi."])] [] [] sample_page
                [Main.mk "u" (VStr "The cat sat") "Dogs" 3 8;
                 Main.mk "v" (VStr "Hi") "Hi" 1 1] ValueError)
    as (Hok & _ & _).
  pose proof (table_is_all_or_nothing [] [sample_page] [sample_page]
                (RawPage.mk "w" (Raise (UrlError "w" "x"))) []
                (UrlError "w" "x")) as (_ & _ & Hfail).
  split.
  - apply Hok. repeat constructor.
  - apply Hfail; [|done]. repeat constructor. by eexists.
Defined.
